(** * Scaner-QR: the scan-record persistence layer, its HTTP routes and
      the capture flow, embedded in Rocq.

    Sources embedded here:
    - [src/app/scans/[id]+api.ts]  : the GET / DELETE / PUT route handlers
      over better-sqlite3 (module [ScanRoute]);
    - [src/unnamed/part_002]        : the simple expo-sqlite data layer
      (module [SimpleStore]);
    - [src/unnamed/part_003]        : the data layer with initialisation
      guards (module [GuardedStore]);
    - [src/unnamed/part_001]        : the scanner screen's capture handler
      (module [Scanner]).

    JavaScript numbers are binary64 floats (Rocq's primitive [float]); SQL
    NULL, JavaScript [null] and [undefined] are [None] where the code does
    not tell them apart. *)

From Stdlib Require Import ZArith List String Ascii Bool Lia.
From Stdlib Require Import PrimFloat SpecFloat FloatOps.
From Stdlib Require Import Sorting.Sorted Sorting.Permutation.
Import ListNotations.

Open Scope string_scope.
Open Scope list_scope.
Open Scope Z_scope.

Set Warnings "-inexact-float,-register-all".

(* ================================================================== *)
(** * JavaScript values                                                 *)
(* ================================================================== *)

Module JS.

(** A JavaScript number. *)
Definition number := float.

(** ToBoolean on a number: [0], [-0] and [NaN] are falsy. *)
Definition truthy_number (f : number) : bool :=
  negb (PrimFloat.is_zero f || PrimFloat.is_nan f).

(** ToBoolean on a string: only the empty string is falsy. *)
Definition truthy_string (s : string) : bool :=
  match s with
  | EmptyString => false
  | String _ _ => true
  end.

(** [v || null] for [v : number | null | undefined]. *)
Definition or_null_number (v : option number) : option number :=
  match v with
  | Some f => if truthy_number f then Some f else None
  | None => None
  end.

(** [v || null] for [v : string | null | undefined]. *)
Definition or_null_string (v : option string) : option string :=
  match v with
  | Some s => if truthy_string s then Some s else None
  | None => None
  end.

(** [v ?? null]: only [null] and [undefined] are replaced. *)
Definition nullish_or_null {A : Type} (v : option A) : option A := v.

(** The global [isNaN] applied to a number. *)
Definition isNaN (f : number) : bool := PrimFloat.is_nan f.

(** A JavaScript string as its sequence of UTF-16 code units; [parseInt]
    inspects code units, so the path parameter is kept in this form. *)
Definition code_unit := N.
Definition jsstring := list code_unit.

(** An ASCII literal as a JavaScript string. *)
Definition js (s : string) : jsstring :=
  map N_of_ascii (list_ascii_of_string s).

(** StrWhiteSpaceChar of ECMA-262: WhiteSpace (TAB, VT, FF, ZWNBSP and
    the Unicode space separators) and LineTerminator (LF, CR, LS, PS). *)
Definition is_white_space (c : code_unit) : bool :=
  match c with
  | 9 | 10 | 11 | 12 | 13 | 32 | 160 | 5760
  | 8232 | 8233 | 8239 | 8287 | 12288 | 65279 => true
  | _ => (8192 <=? c) && (c <=? 8202)
  end%N.

Fixpoint trim_start (s : jsstring) : jsstring :=
  match s with
  | c :: r => if is_white_space c then trim_start r else s
  | [] => []
  end.

(** The value of a code unit as a digit: 0-9, a-z and A-Z count 0..35. *)
Definition digit_value (c : code_unit) : option Z :=
  if ((48 <=? c) && (c <=? 57))%N then Some (Z.of_N c - 48)
  else if ((97 <=? c) && (c <=? 122))%N then Some (Z.of_N c - 87)
  else if ((65 <=? c) && (c <=? 90))%N then Some (Z.of_N c - 55)
  else None.

(** The longest prefix made of radix-[radix] digits, as digit values. *)
Fixpoint radix_digits (radix : Z) (s : jsstring) : list Z :=
  match s with
  | c :: r =>
      match digit_value c with
      | Some d => if d <? radix then d :: radix_digits radix r else []
      | None => []
      end
  | [] => []
  end.

Definition digits_to_Z (radix : Z) (ds : list Z) : Z :=
  fold_left (fun acc d => acc * radix + d) ds 0.

(** The Number value of a signed mathematical integer: round to nearest,
    ties to even, overflow to an infinity; a zero keeps its sign. *)
Definition number_of_integer (negative : bool) (magnitude : Z) : number :=
  SF2Prim (binary_normalize prec emax
             (if negative then - magnitude else magnitude) 0 negative).

(** A leading [-] makes the result negative. *)
Definition is_negative (s : jsstring) : bool :=
  match s with
  | 45%N :: _ => true
  | _ => false
  end.

(** Drop one leading [+] or [-]. *)
Definition strip_sign (s : jsstring) : jsstring :=
  match s with
  | (43 | 45)%N :: r => r
  | _ => s
  end.

(** Radix 16 after a [0x] or [0X] prefix, which is dropped; radix 10
    otherwise. *)
Definition strip_prefix (s : jsstring) : Z * jsstring :=
  match s with
  | 48%N :: (120 | 88)%N :: r => (16, r)
  | _ => (10, s)
  end.

(** [parseInt(string)] with no radix argument, after ECMA-262 19.2.5:
    skip leading white space, read an optional sign, pick the radix,
    read the longest digit prefix; no digit gives [NaN].  (The licence
    to approximate beyond twenty significant digits is not used.) *)
Definition parseInt (input : jsstring) : number :=
  let s := trim_start input in
  let '(radix, digits) := strip_prefix (strip_sign s) in
  match radix_digits radix digits with
  | [] => PrimFloat.nan
  | ds => number_of_integer (is_negative s) (digits_to_Z radix ds)
  end.

(** The exact integer a finite number denotes, when it denotes one. *)
Definition integer_value (f : number) : option Z :=
  match Prim2SF f with
  | S754_zero _ => Some 0
  | S754_finite s m e =>
      let sign := if s then -1 else 1 in
      if 0 <=? e then Some (sign * Z.pos m * 2 ^ e)
      else if Z.pos m mod 2 ^ (- e) =? 0
           then Some (sign * (Z.pos m / 2 ^ (- e)))
           else None
  | S754_infinity _ | S754_nan => None
  end.

End JS.

(* ================================================================== *)
(** * The [scans] table and the SQL statements the code issues          *)
(* ================================================================== *)

(** One row of [scans], column by column as [CREATE TABLE] declares them.
    [id] is the INTEGER PRIMARY KEY (the rowid, never NULL); every other
    column holds a value of its declared type or SQL NULL ([None]). *)
Record Row := mkRow {
  id : Z;
  qr_data : option string;
  latitude : option JS.number;
  longitude : option JS.number;
  altitude : option JS.number;
  accuracy : option JS.number;
  timestamp : option Z;
  created_at : option string
}.

(** The database file [qr_scanner.db]: the [scans] table when it has been
    created, rows in rowid order, and the AUTOINCREMENT counter SQLite
    keeps for it in [sqlite_sequence]. *)
Record Database := mkDatabase {
  scans : option (list Row);
  sqlite_sequence : Z
}.

Definition empty_database : Database :=
  {| scans := None; sqlite_sequence := 0 |}.

Inductive sql_error :=
| NoSuchTable
| NotNullConstraint (column : string)
| DatabaseFull.

Definition sql_error_message (e : sql_error) : string :=
  match e with
  | NoSuchTable => "no such table: scans"
  | NotNullConstraint c => String.append "NOT NULL constraint failed: scans." c
  | DatabaseFull => "database or disk is full"
  end.

Module Sql.

Definition max_int64 : Z := 9223372036854775807.

(** [CREATE TABLE IF NOT EXISTS scans (...)]. *)
Definition create_table_if_not_exists (db : Database) : Database :=
  match scans db with
  | Some _ => db
  | None => {| scans := Some []; sqlite_sequence := sqlite_sequence db |}
  end.

Definition max_rowid (rows : list Row) : Z :=
  fold_right (fun r m => Z.max (id r) m) 0 rows.

(** AUTOINCREMENT: one more than the largest rowid the table holds or
    has ever held. *)
Definition next_rowid (db : Database) (rows : list Row) : Z :=
  Z.max (sqlite_sequence db) (max_rowid rows) + 1.

(** A number bound to a REAL column, as a later SELECT hands it back:
    SQLite stores NaN as NULL, and stores a zero of either sign as the
    integer 0, which reads back as +0. *)
Definition bind_real (v : option JS.number) : option JS.number :=
  match v with
  | Some f =>
      if PrimFloat.is_nan f then None
      else if PrimFloat.is_zero f then Some PrimFloat.zero
      else Some f
  | None => None
  end.

(** [INSERT INTO scans (qr_data, latitude, longitude, altitude, accuracy,
    timestamp) VALUES (?, ?, ?, ?, ?, ?)]; [created_at] takes its default
    CURRENT_TIMESTAMP, here [now].  Gives the new database and the
    [insertId]. *)
Definition insert (now : string)
    (qr : option string) (lat lon alt acc : option JS.number)
    (ts : option Z) (db : Database) : sql_error + Database * Z :=
  match scans db with
  | None => inl NoSuchTable
  | Some rows =>
      match qr, ts with
      | None, _ => inl (NotNullConstraint "qr_data")
      | _, None => inl (NotNullConstraint "timestamp")
      | Some _, Some _ =>
          let rowid := next_rowid db rows in
          if max_int64 <? rowid then inl DatabaseFull
          else
            let row := {| id := rowid; qr_data := qr;
                          latitude := bind_real lat;
                          longitude := bind_real lon;
                          altitude := bind_real alt;
                          accuracy := bind_real acc; timestamp := ts;
                          created_at := Some now |} in
            inr ({| scans := Some (rows ++ [row]);
                    sqlite_sequence := rowid |}, rowid)
      end
  end.

(** SQL ordering of an INTEGER column: NULL sorts below every integer. *)
Definition key_leb (a b : option Z) : bool :=
  match a, b with
  | None, _ => true
  | Some _, None => false
  | Some x, Some y => x <=? y
  end.

Fixpoint insert_desc (r : Row) (sorted : list Row) : list Row :=
  match sorted with
  | [] => [r]
  | x :: rest =>
      if key_leb (timestamp x) (timestamp r) then r :: sorted
      else x :: insert_desc r rest
  end.

(** [ORDER BY timestamp DESC].  SQLite leaves the order of rows with
    equal keys open; this sorter keeps them in scan order. *)
Definition order_by_timestamp_desc (rows : list Row) : list Row :=
  fold_right insert_desc [] rows.

(** [SELECT * FROM scans ORDER BY timestamp DESC]. *)
Definition select_all (db : Database) : sql_error + list Row :=
  match scans db with
  | None => inl NoSuchTable
  | Some rows => inr (order_by_timestamp_desc rows)
  end.

(** [... WHERE id = ?] with an integer argument. *)
Definition id_is (n : Z) (r : Row) : bool := id r =? n.

(** [... WHERE id = ?] with a floating-point argument: SQLite compares
    the integer column with the real number exactly. *)
Definition id_equals (f : JS.number) (r : Row) : bool :=
  match JS.integer_value f with
  | Some n => id r =? n
  | None => false
  end.

(** [SELECT ... FROM scans WHERE id = ?]: the matching rows. *)
Definition select_where (p : Row -> bool) (db : Database)
  : sql_error + list Row :=
  match scans db with
  | None => inl NoSuchTable
  | Some rows => inr (filter p rows)
  end.

(** [DELETE FROM scans WHERE id = ?]: the new database and the number of
    rows removed. *)
Definition delete_where (p : Row -> bool) (db : Database)
  : sql_error + Database * Z :=
  match scans db with
  | None => inl NoSuchTable
  | Some rows =>
      inr ({| scans := Some (filter (fun r => negb (p r)) rows);
              sqlite_sequence := sqlite_sequence db |},
           Z.of_nat (List.length (filter p rows)))
  end.

(** SQL [COALESCE(x, y)]. *)
Definition coalesce {A : Type} (x y : option A) : option A :=
  match x with
  | Some _ => x
  | None => y
  end.

(** The assignment list of the route's UPDATE statement applied to one
    row: [SET qr_data = COALESCE(?, qr_data), latitude = COALESCE(?,
    latitude), ...]. *)
Definition set_coalesce (qr : option string)
    (lat lon alt acc : option JS.number) (r : Row) : Row :=
  {| id := id r;
     qr_data := coalesce qr (qr_data r);
     latitude := coalesce (bind_real lat) (latitude r);
     longitude := coalesce (bind_real lon) (longitude r);
     altitude := coalesce (bind_real alt) (altitude r);
     accuracy := coalesce (bind_real acc) (accuracy r);
     timestamp := timestamp r;
     created_at := created_at r |}.

Definition is_null {A : Type} (x : option A) : bool :=
  match x with
  | Some _ => false
  | None => true
  end.

(** [UPDATE scans SET ... WHERE id = ?]: the new database and the number
    of rows changed.  The statement fails, changing nothing, when it
    would leave NULL in the NOT NULL column it assigns. *)
Definition update_where (p : Row -> bool) (set : Row -> Row)
    (db : Database) : sql_error + Database * Z :=
  match scans db with
  | None => inl NoSuchTable
  | Some rows =>
      if existsb (fun r => p r && is_null (qr_data (set r))) rows
      then inl (NotNullConstraint "qr_data")
      else inr ({| scans := Some (map (fun r => if p r then set r else r) rows);
                   sqlite_sequence := sqlite_sequence db |},
                Z.of_nat (List.length (filter p rows)))
  end.

End Sql.

(* ================================================================== *)
(** * Effects: state, exceptions and try/catch                          *)
(* ================================================================== *)

(** What a JavaScript [throw] or a rejected promise carries. *)
Inductive exn :=
| SqlError (e : sql_error)
| SyntaxError (message : string)
| TypeError (message : string)
| Error (message : string).

(** [error instanceof Error ? error.message : 'Unknown error']: every
    exception of the model is an [Error]. *)
Definition exn_message (e : exn) : string :=
  match e with
  | SqlError e => sql_error_message e
  | SyntaxError m | TypeError m | Error m => m
  end.

(** A computation over a state [S] that returns or throws; an [await]ed
    promise that rejects throws at the [await]. *)
Definition Eff (S A : Type) : Type := S -> S * (exn + A).

Definition ret {S A : Type} (a : A) : Eff S A := fun s => (s, inr a).

Definition throw {S A : Type} (e : exn) : Eff S A := fun s => (s, inl e).

Definition bind {S A B : Type} (c : Eff S A) (k : A -> Eff S B) : Eff S B :=
  fun s =>
    match c s with
    | (s', inr a) => k a s'
    | (s', inl e) => (s', inl e)
    end.

(** [try { c } catch (error) { handler }]. *)
Definition try_catch {S A : Type} (c : Eff S A) (handler : exn -> Eff S A)
  : Eff S A :=
  fun s =>
    match c s with
    | (s', inr a) => (s', inr a)
    | (s', inl e) => handler e s'
    end.

Declare Scope eff_scope.
Delimit Scope eff_scope with eff.
Notation "x <- c ;; k" := (bind c (fun x => k))
  (at level 61, c at next level, right associativity) : eff_scope.
Notation "c ;;; k" := (bind c (fun _ => k))
  (at level 61, right associativity) : eff_scope.
Open Scope eff_scope.

(** ** The storage handle *)

(** The statements the code sends to the database, for the record of what
    a call did to storage. *)
Inductive storage_op :=
| CreateTable
| SelectAll
| SelectById
| Insert
| Delete
| Update.

(** The process state a storage call works on: the database behind the
    module's handle and the statements executed so far. *)
Record World := mkWorld {
  database : Database;
  storage_log : list storage_op
}.

Definition Store (A : Type) : Type := Eff World A.

(** Execute a statement that may change the database. *)
Definition execute {A : Type} (op : storage_op)
    (stmt : Database -> sql_error + Database * A) : Store A :=
  fun w =>
    let log := storage_log w ++ [op] in
    match stmt (database w) with
    | inl e => ({| database := database w; storage_log := log |},
                inl (SqlError e))
    | inr (db', a) => ({| database := db'; storage_log := log |}, inr a)
    end.

(** Execute a query. *)
Definition query {A : Type} (op : storage_op)
    (q : Database -> sql_error + A) : Store A :=
  execute op (fun db => match q db with
                        | inl e => inl e
                        | inr a => inr (db, a)
                        end).

(** A call on a database [db] with an empty record of statements. *)
Definition on (db : Database) : World :=
  {| database := db; storage_log := [] |}.

(* ================================================================== *)
(** * JSON envelopes                                                    *)
(* ================================================================== *)

Inductive json :=
| JNull
| JBool (b : bool)
| JNumber (f : JS.number)
| JInteger (z : Z)
| JString (s : string)
| JObject (members : list (string * json)).

Definition json_option {A : Type} (f : A -> json) (v : option A) : json :=
  match v with
  | Some a => f a
  | None => JNull
  end.

(** A row as the object the database driver hands back for [SELECT *]. *)
Definition json_of_row (r : Row) : json :=
  JObject [("id", JInteger (id r));
           ("qr_data", json_option JString (qr_data r));
           ("latitude", json_option JNumber (latitude r));
           ("longitude", json_option JNumber (longitude r));
           ("altitude", json_option JNumber (altitude r));
           ("accuracy", json_option JNumber (accuracy r));
           ("timestamp", json_option JInteger (timestamp r));
           ("created_at", json_option JString (created_at r))].

Record Response := mkResponse {
  status : Z;
  body : json
}.

(** [Response.json(data, { status })], and with no init the status 200. *)
Definition Response_json (data : json) (status : Z) : Response :=
  {| status := status; body := data |}.

Definition Response_json_ok (data : json) : Response :=
  Response_json data 200.

(* ================================================================== *)
(** * [app/scans/[id]+api.ts]: the routes on one scan                   *)
(* ================================================================== *)

(** The fields a PUT body may carry, each typed as in [ScanRecord];
    [None] is a key that is missing or [null] (the handler reads both the
    same way). *)
Module Body.
Record t := mk {
  qr_data : option string;
  latitude : option JS.number;
  longitude : option JS.number;
  altitude : option JS.number;
  accuracy : option JS.number
}.

Definition empty : t :=
  {| qr_data := None; latitude := None; longitude := None;
     altitude := None; accuracy := None |}.
End Body.

(** What [await request.json()] finds in the request: text that is not
    JSON, the JSON literal [null], or a value whose properties can be
    read. *)
Inductive RequestBody :=
| Malformed
| NullLiteral
| Fields (fields : Body.t).

Module ScanRoute.

(** [await request.json()]. *)
Definition request_json (request : RequestBody) : Store RequestBody :=
  match request with
  | Malformed => throw (SyntaxError "Unexpected end of JSON input")
  | _ => ret request
  end.

(** Reading a property of the parsed body. *)
Definition property {A : Type} (parsed : RequestBody)
    (name : string) (field : Body.t -> option A) : Store (option A) :=
  match parsed with
  | Fields f => ret (field f)
  | _ => throw (TypeError
           (String.append "Cannot read properties of null (reading '"
              (String.append name "')")))
  end.

(** [db.prepare('SELECT * FROM scans WHERE id = ?').get(scanId)]. *)
Definition get_scan (scanId : JS.number) : Store (option Row) :=
  rows <- query SelectById (Sql.select_where (Sql.id_equals scanId)) ;;
  ret (hd_error rows).

(** [db.prepare('SELECT id FROM scans WHERE id = ?').get(scanId)]. *)
Definition get_id (scanId : JS.number) : Store (option Z) :=
  rows <- query SelectById (Sql.select_where (Sql.id_equals scanId)) ;;
  ret (hd_error (map id rows)).

Definition invalid_scan_id : Response :=
  Response_json
    (JObject [("success", JBool false); ("error", JString "Invalid scan ID")])
    400.

Definition scan_not_found : Response :=
  Response_json
    (JObject [("success", JBool false); ("error", JString "Scan not found")])
    404.

Definition failure (what : string) (error : exn) : Response :=
  Response_json
    (JObject [("success", JBool false); ("error", JString what);
              ("message", JString (exn_message error))])
    500.

(** GET: retrieve one scan by id. *)
Definition GET (id : JS.jsstring) : Store Response :=
  try_catch
    (let scanId := JS.parseInt id in
     if JS.isNaN scanId then ret invalid_scan_id
     else
       scan <- get_scan scanId ;;
       match scan with
       | None => ret scan_not_found
       | Some row =>
           ret (Response_json_ok
                  (JObject [("success", JBool true);
                            ("scan", json_of_row row)]))
       end)
    (fun error => ret (failure "Failed to fetch scan" error)).

(** DELETE: remove one scan by id. *)
Definition DELETE (id : JS.jsstring) : Store Response :=
  try_catch
    (let scanId := JS.parseInt id in
     if JS.isNaN scanId then ret invalid_scan_id
     else
       existingScan <- get_id scanId ;;
       match existingScan with
       | None => ret scan_not_found
       | Some _ =>
           changes <- execute Delete
                        (Sql.delete_where (Sql.id_equals scanId)) ;;
           ret (Response_json_ok
                  (JObject [("success", JBool true);
                            ("message", JString "Scan deleted successfully");
                            ("deletedId", JNumber scanId);
                            ("changes", JInteger changes)]))
       end)
    (fun error => ret (failure "Failed to delete scan" error)).

(** PUT: update one scan by id. *)
Definition PUT (request : RequestBody) (id : JS.jsstring) : Store Response :=
  try_catch
    (let scanId := JS.parseInt id in
     if JS.isNaN scanId then ret invalid_scan_id
     else
       body <- request_json request ;;
       existingScan <- get_id scanId ;;
       match existingScan with
       | None => ret scan_not_found
       | Some _ =>
           qr <- property body "qr_data" Body.qr_data ;;
           lat <- property body "latitude" Body.latitude ;;
           lon <- property body "longitude" Body.longitude ;;
           alt <- property body "altitude" Body.altitude ;;
           acc <- property body "accuracy" Body.accuracy ;;
           changes <- execute Update
                        (Sql.update_where (Sql.id_equals scanId)
                           (Sql.set_coalesce
                              (JS.or_null_string qr)
                              (JS.or_null_number lat)
                              (JS.or_null_number lon)
                              (JS.or_null_number alt)
                              (JS.or_null_number acc))) ;;
           updatedScan <- get_scan scanId ;;
           ret (Response_json_ok
                  (JObject [("success", JBool true);
                            ("message", JString "Scan updated successfully");
                            ("scan", json_option json_of_row updatedScan);
                            ("changes", JInteger changes)]))
       end)
    (fun error => ret (failure "Failed to update scan" error)).

End ScanRoute.

(* ================================================================== *)
(** * The data layers over expo-sqlite                                   *)
(* ================================================================== *)

(** [Omit<ScanRecord, 'id' | 'created_at'>]: what a caller hands to
    [addScan]. *)
Module ScanData.
Record t := mk {
  qr_data : string;
  latitude : option JS.number;
  longitude : option JS.number;
  altitude : option JS.number;
  accuracy : option JS.number;
  timestamp : Z
}.
End ScanData.

(** [part_002]: the simple data layer.  A promise that rejects is a
    computation that throws. *)
Module SimpleStore.

(** [initDatabase]: the statement has no callbacks, a failure is
    dropped. *)
Definition initDatabase : Store unit :=
  try_catch
    (execute CreateTable
       (fun db => inr (Sql.create_table_if_not_exists db, tt)))
    (fun _ => ret tt).

Definition getScans : Store (list Row) :=
  query SelectAll Sql.select_all.

(** [addScan]: [now] is the clock CURRENT_TIMESTAMP reads. *)
Definition addScan (now : string) (scanData : ScanData.t)
  : Store (option Row) :=
  insertId <- execute Insert
                (Sql.insert now
                   (Some (ScanData.qr_data scanData))
                   (JS.or_null_number (ScanData.latitude scanData))
                   (JS.or_null_number (ScanData.longitude scanData))
                   (JS.or_null_number (ScanData.altitude scanData))
                   (JS.or_null_number (ScanData.accuracy scanData))
                   (Some (ScanData.timestamp scanData))) ;;
  rows <- query SelectById (Sql.select_where (Sql.id_is insertId)) ;;
  ret (hd_error rows).

(** [deleteScan]: the success callback resolves [true], the error
    callback resolves [false]. *)
Definition deleteScan (id : Z) : Store bool :=
  try_catch
    (execute Delete (Sql.delete_where (Sql.id_is id)) ;;; ret true)
    (fun _ => ret false).

End SimpleStore.

(** [part_003]: the data layer that initialises before every call. *)
Module GuardedStore.

Definition initDatabase : Store unit :=
  execute CreateTable
    (fun db => inr (Sql.create_table_if_not_exists db, tt)).

Definition getScans : Store (list Row) :=
  try_catch
    (initDatabase ;;; query SelectAll Sql.select_all)
    (fun error => throw error).

Definition addScan (now : string) (scanData : ScanData.t) : Store Z :=
  try_catch
    (initDatabase ;;;
     insertId <- execute Insert
                   (Sql.insert now
                      (Some (ScanData.qr_data scanData))
                      (JS.nullish_or_null (ScanData.latitude scanData))
                      (JS.nullish_or_null (ScanData.longitude scanData))
                      (JS.nullish_or_null (ScanData.altitude scanData))
                      (JS.nullish_or_null (ScanData.accuracy scanData))
                      (Some (ScanData.timestamp scanData))) ;;
     if insertId =? 0
     then throw (Error "No se obtuvo ID de inserción")
     else ret insertId)
    (fun error => throw error).

Definition deleteScan (id : Z) : Store bool :=
  try_catch
    (initDatabase ;;;
     rowsAffected <- execute Delete (Sql.delete_where (Sql.id_is id)) ;;
     ret (0 <? rowsAffected))
    (fun error => throw error).

End GuardedStore.

(* ================================================================== *)
(** * [part_001]: the scanner screen's capture handler                  *)
(* ================================================================== *)

Module Scanner.

(** [Location.LocationObject], its [coords]. *)
Record Coords := mkCoords {
  latitude : JS.number;
  longitude : JS.number;
  altitude : option JS.number;
  accuracy : option JS.number
}.

Record ScanResult := mkScanResult {
  data : string;
  location : option Coords;
  timestamp : Z
}.

(** What the handler does to the screen, the console and the network,
    in order. *)
Inductive effect :=
| SetLocation (l : Coords)
| SetLastScan (r : ScanResult)
| SetScanCount
| Fetch (url method : string) (requestBody : ScanData.t)
| ConsoleLog (label : string)
| ConsoleError (label : string) (error : exn)
| Alert (title message : string)
| ShowNotification (message : string).

(** How a [fetch] ends: the promise rejects, or a response arrives with
    its [ok] flag and a body that [response.json()] reads or rejects. *)
Inductive fetch_outcome :=
| Rejects (error : exn)
| Responds (ok : bool) (json : exn + unit).

(** The component state and the surroundings of one capture event. *)
Record Env := mkEnv {
  locationPermission : bool;
  state_location : option Coords;
  getCurrentPositionAsync : exn + Coords;
  Date_now : Z;
  fetch : fetch_outcome
}.

Definition UI (A : Type) : Type := Eff (list effect) A.

Definition emit (e : effect) : UI unit :=
  fun trace => (trace ++ [e], inr tt).

Definition await {A : Type} (outcome : exn + A) : UI A :=
  match outcome with
  | inl e => throw e
  | inr a => ret a
  end.

Definition success_message : string := "Código QR escaneado correctamente".

Definition showNotification (message : string) : UI unit :=
  emit (ShowNotification message).

Definition saveScanToDatabase (env : Env) (scanResult : ScanResult)
  : UI unit :=
  try_catch
    (let coords := location scanResult in
     let requestBody :=
       {| ScanData.qr_data := data scanResult;
          ScanData.latitude :=
            JS.or_null_number (option_map latitude coords);
          ScanData.longitude :=
            JS.or_null_number (option_map longitude coords);
          ScanData.altitude :=
            JS.or_null_number
              (match coords with Some c => altitude c | None => None end);
          ScanData.accuracy :=
            JS.or_null_number
              (match coords with Some c => accuracy c | None => None end);
          ScanData.timestamp := timestamp scanResult |} in
     emit (Fetch "/scans" "POST" requestBody) ;;;
     match fetch env with
     | Rejects error => throw error
     | Responds ok json =>
         if negb ok then throw (Error "Failed to save scan")
         else
           await json ;;;
           emit (ConsoleLog "Scan saved successfully:")
     end)
    (fun error => emit (ConsoleError "Error saving scan:" error)).

Definition handleBarCodeScanned (env : Env) (data : string) : UI unit :=
  try_catch
    (currentLocation <-
       (if locationPermission env
        then
          l <- await (getCurrentPositionAsync env) ;;
          emit (SetLocation l) ;;;
          ret (Some l)
        else ret (state_location env)) ;;
     let scanResult :=
       {| data := data; location := currentLocation;
          timestamp := Date_now env |} in
     emit (SetLastScan scanResult) ;;;
     emit SetScanCount ;;;
     saveScanToDatabase env scanResult ;;;
     showNotification success_message)
    (fun error =>
       emit (ConsoleError "Error handling scan:" error) ;;;
       emit (Alert "Error" "No se pudo procesar el código QR")).

(** The persistence call of a capture fails: the request is rejected,
    the response is not [ok], or its body cannot be read. *)
Definition persistence_fails (env : Env) : bool :=
  match fetch env with
  | Rejects _ => true
  | Responds ok json =>
      negb ok || match json with inl _ => true | inr _ => false end
  end.

(** An event that tells the user something went wrong: an alert, or a
    banner other than the success banner. *)
Definition reports_failure (e : effect) : bool :=
  match e with
  | Alert _ _ => true
  | ShowNotification m => negb (String.eqb m success_message)
  | _ => false
  end.

Definition logs_save_error (e : effect) : bool :=
  match e with
  | ConsoleError label _ => String.eqb label "Error saving scan:"
  | _ => false
  end.

End Scanner.

(* ================================================================== *)
(** * Reachable databases                                               *)
(* ================================================================== *)

Definition stored_rows (db : Database) : list Row :=
  match scans db with
  | Some rows => rows
  | None => []
  end.

(** The calls that can touch the database. *)
Inductive operation :=
| SimpleInit
| SimpleGet
| SimpleAdd (now : string) (scanData : ScanData.t)
| SimpleDelete (id : Z)
| GuardedInit
| GuardedGet
| GuardedAdd (now : string) (scanData : ScanData.t)
| GuardedDelete (id : Z)
| RouteGET (id : JS.jsstring)
| RouteDELETE (id : JS.jsstring)
| RoutePUT (request : RequestBody) (id : JS.jsstring).

(** The database a call leaves behind. *)
Definition after {A : Type} (c : Store A) (db : Database) : Database :=
  database (fst (c (on db))).

(** What a call returns or throws. *)
Definition outcome {A : Type} (c : Store A) (db : Database) : exn + A :=
  snd (c (on db)).

(** The statements a call executed. *)
Definition statements {A : Type} (c : Store A) (db : Database)
  : list storage_op :=
  storage_log (fst (c (on db))).

Definition apply (op : operation) (db : Database) : Database :=
  match op with
  | SimpleInit => after SimpleStore.initDatabase db
  | SimpleGet => after SimpleStore.getScans db
  | SimpleAdd now d => after (SimpleStore.addScan now d) db
  | SimpleDelete i => after (SimpleStore.deleteScan i) db
  | GuardedInit => after GuardedStore.initDatabase db
  | GuardedGet => after GuardedStore.getScans db
  | GuardedAdd now d => after (GuardedStore.addScan now d) db
  | GuardedDelete i => after (GuardedStore.deleteScan i) db
  | RouteGET i => after (ScanRoute.GET i) db
  | RouteDELETE i => after (ScanRoute.DELETE i) db
  | RoutePUT request i => after (ScanRoute.PUT request i) db
  end.

Inductive reachable : Database -> Prop :=
| reachable_empty : reachable empty_database
| reachable_step : forall db op,
    reachable db -> reachable (apply op db).

(** The data-model invariants the storage layer keeps: ids are unique,
    and [qr_data] and [timestamp] are never NULL. *)
Definition present {A : Type} (v : option A) : Prop := v <> None.

Definition row_ok (r : Row) : Prop :=
  present (qr_data r) /\ present (timestamp r).

Definition database_ok (db : Database) : Prop :=
  NoDup (map id (stored_rows db)) /\ Forall row_ok (stored_rows db).

(** Latitude and longitude are both present or both absent. *)
Definition paired (r : Row) : Prop :=
  present (latitude r) <-> present (longitude r).

(** The ids of [new] are the ids of [old], some possibly removed, in the
    same order, followed by ids that [old] does not hold. *)
Definition ids_kept (old new : list Row) : Prop :=
  exists (keep : Z -> bool) (fresh : list Z),
    map id new = filter keep (map id old) ++ fresh /\
    Forall (fun i => ~ In i (map id old)) fresh.

(* ================================================================== *)
(** * Notions the properties are stated with                            *)
(* ================================================================== *)

(** Written from the specification's words, not from the code: a numeric
    id is a non-empty string of decimal digits. *)
Definition numeric_string (s : JS.jsstring) : bool :=
  match s with
  | [] => false
  | _ => forallb (fun c => (48 <=? c)%N && (c <=? 57)%N) s
  end.

(** Descending order on [timestamp]: [a] may stand before [b]. *)
Definition not_older (a b : Row) : Prop :=
  Sql.key_leb (timestamp b) (timestamp a) = true.

(** [a] is strictly more recent than [b]. *)
Definition newer (a b : Row) : Prop :=
  Sql.key_leb (timestamp a) (timestamp b) = false.

(** What an update may do to a row: the id, the timestamp and the
    creation time stay, and a row the id argument does not select stays
    as it is. *)
Definition framed (scanId : JS.number) (old new : Row) : Prop :=
  id new = id old /\
  timestamp new = timestamp old /\
  created_at new = created_at old /\
  (Sql.id_equals scanId old = false -> new = old).

(** What a call may do to the stored rows.  An initialisation, a listing
    or a lookup leaves them as they are.  An addition leaves them as they
    are and may append one row, whose id no stored row has.  A deletion
    removes rows chosen by their id and leaves the others as they are, in
    order.  An update leaves every row in its place, with its id, its
    timestamp and its creation time. *)
Definition rows_after (op : operation) (old new : list Row) : Prop :=
  match op with
  | SimpleInit | SimpleGet | GuardedInit | GuardedGet | RouteGET _ =>
      new = old
  | SimpleAdd _ _ | GuardedAdd _ _ =>
      new = old \/
      exists row, new = old ++ [row] /\ ~ In (id row) (map id old)
  | SimpleDelete i | GuardedDelete i =>
      new = filter (fun r => negb (id r =? i)) old
  | RouteDELETE _ =>
      exists keep : Z -> bool, new = filter (fun r => keep (id r)) old
  | RoutePUT _ path_id =>
      Forall2 (framed (JS.parseInt path_id)) old new
  end.

(** [n] calls of [c] in a row. *)
Fixpoint times (n : nat) (c : Store unit) : Store unit :=
  match n with
  | O => ret tt
  | S k => c ;;; times k c
  end.

(** ** Sample data *)

Definition madrid : Row :=
  {| id := 1; qr_data := Some "https://example.com";
     latitude := Some 40.4168%float; longitude := Some (-3.7038)%float;
     altitude := None; accuracy := None;
     timestamp := Some 1700000000000;
     created_at := Some "2023-11-14 22:13:20" |}.

Definition no_fix : Row :=
  {| id := 2; qr_data := Some "WIFI:S:cafe;;";
     latitude := None; longitude := None;
     altitude := None; accuracy := None;
     timestamp := Some 1700000060000;
     created_at := Some "2023-11-14 22:14:20" |}.

Definition sample_database : Database :=
  {| scans := Some [madrid; no_fix]; sqlite_sequence := 2 |}.

Definition example_scan : ScanData.t :=
  {| ScanData.qr_data := "https://example.com";
     ScanData.latitude := Some 40.4168%float;
     ScanData.longitude := Some (-3.7038)%float;
     ScanData.altitude := None; ScanData.accuracy := None;
     ScanData.timestamp := 1700000000000 |}.

(** A scan taken on the equator. *)
Definition equator_scan : ScanData.t :=
  {| ScanData.qr_data := "https://example.com";
     ScanData.latitude := Some 0%float;
     ScanData.longitude := Some (-78.4678)%float;
     ScanData.altitude := None; ScanData.accuracy := None;
     ScanData.timestamp := 1700000000000 |}.

(** A fresh file on which a scan is stored with no location and then
    updated by a PUT that carries a latitude alone. *)
Definition half_located : Database :=
  apply (RoutePUT (Fields {| Body.qr_data := None;
                             Body.latitude := Some 40.4168%float;
                             Body.longitude := None;
                             Body.altitude := None;
                             Body.accuracy := None |}) (JS.js "1"))
    (apply (SimpleAdd "2023-11-14 22:14:20"
              {| ScanData.qr_data := "WIFI:S:cafe;;";
                 ScanData.latitude := None; ScanData.longitude := None;
                 ScanData.altitude := None; ScanData.accuracy := None;
                 ScanData.timestamp := 1700000060000 |})
       (apply SimpleInit empty_database)).

(** A capture with no location permission while the network is down. *)
Definition offline : Scanner.Env :=
  {| Scanner.locationPermission := false;
     Scanner.state_location := None;
     Scanner.getCurrentPositionAsync := inl (Error "Location unavailable");
     Scanner.Date_now := 1700000000000;
     Scanner.fetch := Scanner.Rejects (TypeError "Network request failed") |}.

(** The capture reaches the persistence call: reading the position,
    when it is attempted, does not throw. *)
Definition location_acquired (env : Scanner.Env) : bool :=
  negb (Scanner.locationPermission env) ||
  match Scanner.getCurrentPositionAsync env with
  | inr _ => true
  | inl _ => false
  end.

(** What one call does to the database: nothing, or one statement of the
    schema applied with success.  The WHERE clauses of the code select on
    the id alone. *)
Inductive statement_effect (db : Database) : Database -> Prop :=
| effect_none : statement_effect db db
| effect_create : statement_effect db (Sql.create_table_if_not_exists db)
| effect_insert : forall now qr lat lon alt acc ts db' rowid,
    Sql.insert now qr lat lon alt acc ts db = inr (db', rowid) ->
    statement_effect db db'
| effect_delete : forall (selected : Z -> bool) db' changes,
    Sql.delete_where (fun r => selected (id r)) db = inr (db', changes) ->
    statement_effect db db'
| effect_update : forall (selected : Z -> bool) qr lat lon alt acc db' changes,
    Sql.update_where (fun r => selected (id r))
      (Sql.set_coalesce qr lat lon alt acc) db = inr (db', changes) ->
    statement_effect db db'.

(* ================================================================== *)
(** * [part_000]: the history screen                                    *)
(* ================================================================== *)

(** [try { c } finally { cleanup }]: [cleanup] runs whatever [c] did, and
    what [c] returned or threw stands unless [cleanup] throws. *)
Definition try_finally {S A : Type} (c : Eff S A) (cleanup : Eff S unit)
  : Eff S A :=
  fun s =>
    match c s with
    | (s', r) =>
        match cleanup s' with
        | (s'', inr _) => (s'', r)
        | (s'', inl e) => (s'', inl e)
        end
    end.

(** The [id] of a scan, under a name the modules below do not shadow. *)
Definition Row_id (r : Row) : Z := id r.

Module History.

(** Canonicalisation of the [i] flag on the characters the pattern
    uses: an ASCII letter and its other case are the same, and no
    character outside ASCII is the same as an ASCII one. *)
Definition fold_case (c : ascii) : ascii :=
  let n := N_of_ascii c in
  if ((65 <=? n) && (n <=? 90))%N then ascii_of_N (n + 32) else c.

(** The text starts with the pattern, case aside. *)
Fixpoint prefix_ci (pattern text : string) : bool :=
  match pattern, text with
  | EmptyString, _ => true
  | String p ps, String c cs =>
      Ascii.eqb (fold_case p) (fold_case c) && prefix_ci ps cs
  | String _ _, EmptyString => false
  end.

(** The pattern occurs somewhere in the text, case aside. *)
Fixpoint search_ci (pattern text : string) : bool :=
  prefix_ci pattern text ||
  match text with
  | EmptyString => false
  | String _ rest => search_ci pattern rest
  end.

(** [isURL]: the test of [/^(https?:\/\/)|(www\.)/i].  The alternation
    binds weakest: the first branch is anchored at the start, the second
    is not. *)
Definition isURL (text : string) : bool :=
  prefix_ci "http://" text || prefix_ci "https://" text ||
  search_ci "www." text.

(** What the screen does to the console, the dialogs and the network. *)
Inductive event :=
| Fetch (method path : string) (id : option Z)
| ConsoleError (label : string) (error : option exn)
| Alert (title message : string)
| AlertButtons (title message : string) (buttons : list string).

(** The component state ([useState]) and the events so far. *)
Record Screen := mkScreen {
  scans : list Row;
  loading : bool;
  refreshing : bool;
  events : list event
}.

Definition UI (A : Type) : Type := Eff Screen A.

Definition emit (e : event) : UI unit :=
  fun s => ({| scans := scans s; loading := loading s;
               refreshing := refreshing s; events := events s ++ [e] |},
            inr tt).

Definition setScans (update : list Row -> list Row) : UI unit :=
  fun s => ({| scans := update (scans s); loading := loading s;
               refreshing := refreshing s; events := events s |}, inr tt).

Definition setLoading (b : bool) : UI unit :=
  fun s => ({| scans := scans s; loading := b;
               refreshing := refreshing s; events := events s |}, inr tt).

Definition setRefreshing (b : bool) : UI unit :=
  fun s => ({| scans := scans s; loading := loading s;
               refreshing := b; events := events s |}, inr tt).

(** The body of the answer to [GET /scans] as [response.json()] gives
    it: unreadable, the literal [null], or a value whose [scans] property
    is an array or is missing. *)
Inductive list_body :=
| Unreadable (error : exn)
| NullBody
| Data (scans : option (list Row)).

Inductive list_outcome :=
| ListRejects (error : exn)
| ListResponds (ok : bool) (body : list_body).

(** [await response.json()] followed by [data.scans]. *)
Definition data_scans (body : list_body) : UI (option (list Row)) :=
  match body with
  | Unreadable error => throw error
  | NullBody =>
      throw (TypeError "Cannot read properties of null (reading 'scans')")
  | Data scans => ret scans
  end.

Definition fetchScans (net : list_outcome) : UI unit :=
  try_finally
    (try_catch
       (setLoading true ;;;
        emit (Fetch "GET" "/scans" None) ;;;
        match net with
        | ListRejects error => throw error
        | ListResponds ok body =>
            if ok then
              found <- data_scans body ;;
              setScans (fun _ => match found with
                                 | Some l => l
                                 | None => []
                                 end)
            else emit (ConsoleError "Failed to fetch scans" None)
        end)
       (fun error =>
          emit (ConsoleError "Error fetching scans:" (Some error)) ;;;
          emit (Alert "Error" "No se pudieron cargar los escaneos")))
    (setLoading false ;;; setRefreshing false).


(** The button of the confirmation dialog the user presses. *)
Inductive choice :=
| Cancelar
| Eliminar.

Inductive delete_outcome :=
| DeleteRejects (error : exn)
| DeleteResponds (ok : bool).

(** [deleteScan]: ask, and on [Eliminar] send [DELETE /scans/{id}] and
    drop the scan from the list when the answer is ok. *)
Definition deleteScan (pressed : choice) (net : delete_outcome) (id : Z)
  : UI unit :=
  emit (AlertButtons "Eliminar Escaneo"
          "¿Estás seguro de que quieres eliminar este escaneo?"
          ["Cancelar"; "Eliminar"]) ;;;
  match pressed with
  | Cancelar => ret tt
  | Eliminar =>
      try_catch
        (emit (Fetch "DELETE" "/scans/" (Some id)) ;;;
         match net with
         | DeleteRejects error => throw error
         | DeleteResponds ok =>
             if ok then
               setScans (filter (fun scan => negb (Row_id scan =? id)))
             else emit (Alert "Error" "No se pudo eliminar el escaneo")
         end)
        (fun error =>
           emit (ConsoleError "Error deleting scan:" (Some error)) ;;;
           emit (Alert "Error" "No se pudo eliminar el escaneo"))
  end.

End History.

(** ** Further notions *)




(** A text with its ASCII capitals turned into small letters. *)
Fixpoint fold_text (text : string) : string :=
  match text with
  | EmptyString => EmptyString
  | String c rest => String (History.fold_case c) (fold_text rest)
  end.

(** A request the capture handler sent. *)
Definition is_request (e : Scanner.effect) : bool :=
  match e with
  | Scanner.Fetch _ _ _ => true
  | _ => false
  end.

(** A dialog the history screen opened. *)
Definition is_dialog (e : History.event) : bool :=
  match e with
  | History.Alert _ _ | History.AlertButtons _ _ _ => true
  | _ => false
  end.


(** The text holds the character. *)
Fixpoint has_char (c : ascii) (text : string) : bool :=
  match text with
  | EmptyString => false
  | String x rest => Ascii.eqb x c || has_char c rest
  end.

(** What the PUT handler makes of one field: a truthy value of the body
    is stored, anything else keeps the stored value. *)
Definition updated_number (given old : option JS.number)
  : option JS.number :=
  match given with
  | Some f => if JS.truthy_number f then Some f else old
  | None => old
  end.

Definition updated_string (given old : option string) : option string :=
  match given with
  | Some s => if JS.truthy_string s then Some s else old
  | None => old
  end.

(** ** Proof steps that recur *)

(** Run a storage call on its state. *)
Ltac run_store :=
  unfold after, outcome, try_catch, bind, query, execute, ret, throw; cbn.

(** Run the capture handler's steps on its trace. *)
Ltac run_ui :=
  unfold Scanner.saveScanToDatabase, Scanner.showNotification, Scanner.await,
    Scanner.emit, try_catch, bind, ret, throw; cbn.

(* ================================================================== *)
(** * Properties                                                        *)
(* ================================================================== *)

(** ** [parseInt] on sample ids *)

Example parseInt_42 : JS.integer_value (JS.parseInt (JS.js "42")) = Some 42.
Proof. vm_compute. reflexivity. Qed.

Example parseInt_neg : JS.integer_value (JS.parseInt (JS.js "  -17px")) = Some (-17).
Proof. vm_compute. reflexivity. Qed.

Example parseInt_hex : JS.integer_value (JS.parseInt (JS.js "0x1f")) = Some 31.
Proof. vm_compute. reflexivity. Qed.

Example parseInt_abc : JS.isNaN (JS.parseInt (JS.js "abc")) = true.
Proof. vm_compute. reflexivity. Qed.

Example parseInt_empty : JS.isNaN (JS.parseInt (JS.js "")) = true.
Proof. vm_compute. reflexivity. Qed.

Example parseInt_rounds :
  JS.integer_value (JS.parseInt (JS.js "9007199254740993")) = Some 9007199254740992.
Proof. vm_compute. reflexivity. Qed.

Example truthy_zero : JS.truthy_number 0%float = false.
Proof. reflexivity. Qed.

Example truthy_lat : JS.truthy_number 40.4168%float = true.
Proof. reflexivity. Qed.

Example parseInt_prefix :
  JS.integer_value (JS.parseInt (JS.js "12abc")) = Some 12.
Proof. vm_compute. reflexivity. Qed.

Example parseInt_huge :
  JS.parseInt (JS.js "1e400") = 1%float /\
  JS.integer_value (JS.parseInt (JS.js "99999999999999999999")) = Some (10 ^ 20).
Proof. vm_compute. split; reflexivity. Qed.

(** A string with no digit after the white space, sign and radix prefix
    parses to [NaN]. *)
Lemma parseInt_no_digit (input : JS.jsstring) :
  (let '(radix, digits) :=
     JS.strip_prefix (JS.strip_sign (JS.trim_start input)) in
   JS.radix_digits radix digits) = [] ->
  JS.isNaN (JS.parseInt input) = true.
Proof.
  unfold JS.parseInt.
  destruct (JS.strip_prefix _) as [radix digits].
  intros ->. reflexivity.
Qed.

(** ** Running statements *)

Lemma query_on_table {A : Type} (op : storage_op)
    (q : Database -> sql_error + A) (w : World) (a : A) :
  q (database w) = inr a ->
  query op q w =
    ({| database := database w; storage_log := storage_log w ++ [op] |},
     inr a).
Proof. intros H. unfold query, execute. rewrite H. reflexivity. Qed.

Lemma select_where_table (p : Row -> bool) (db : Database) (rows : list Row) :
  scans db = Some rows ->
  Sql.select_where p db = inr (filter p rows).
Proof. intros H. unfold Sql.select_where. rewrite H. reflexivity. Qed.

Lemma filter_none {A : Type} (p : A -> bool) (l : list A) :
  (forall x, In x l -> p x = false) -> filter p l = [].
Proof.
  induction l as [|x l IH]; intros H; [reflexivity|].
  cbn [filter]. rewrite (H x (or_introl eq_refl)).
  apply IH. intros y Hy. apply H. right. exact Hy.
Qed.

Lemma get_id_missing (scanId : JS.number) (w : World) (rows : list Row) :
  scans (database w) = Some rows ->
  (forall r, In r rows -> Sql.id_equals scanId r = false) ->
  ScanRoute.get_id scanId w =
    ({| database := database w;
        storage_log := storage_log w ++ [SelectById] |}, inr None).
Proof.
  intros Ht Hm. unfold ScanRoute.get_id, bind.
  rewrite (query_on_table _ _ w (filter (Sql.id_equals scanId) rows))
    by (apply select_where_table; exact Ht).
  rewrite (filter_none _ _ Hm). reflexivity.
Qed.

Lemma get_scan_missing (scanId : JS.number) (w : World) (rows : list Row) :
  scans (database w) = Some rows ->
  (forall r, In r rows -> Sql.id_equals scanId r = false) ->
  ScanRoute.get_scan scanId w =
    ({| database := database w;
        storage_log := storage_log w ++ [SelectById] |}, inr None).
Proof.
  intros Ht Hm. unfold ScanRoute.get_scan, bind.
  rewrite (query_on_table _ _ w (filter (Sql.id_equals scanId) rows))
    by (apply select_where_table; exact Ht).
  rewrite (filter_none _ _ Hm). reflexivity.
Qed.

(** ** Ids that do not parse *)

(** C5, as the code has it: an id that [parseInt] reads no number from
    (the result is NaN) makes each of GET, DELETE and PUT answer 400 with
    [{success:false, error:"Invalid scan ID"}]; the database and the
    record of executed statements are left exactly as they were. *)
Theorem unparsable_id_rejected (w : World) (request : RequestBody)
    (id : JS.jsstring) :
  JS.isNaN (JS.parseInt id) = true ->
  ScanRoute.GET id w = (w, inr ScanRoute.invalid_scan_id) /\
  ScanRoute.DELETE id w = (w, inr ScanRoute.invalid_scan_id) /\
  ScanRoute.PUT request id w = (w, inr ScanRoute.invalid_scan_id).
Proof.
  intros H.
  unfold ScanRoute.GET, ScanRoute.DELETE, ScanRoute.PUT, try_catch.
  cbv zeta. rewrite H. repeat split.
Qed.

Lemma unparsable_id_rejected_abc :
  JS.isNaN (JS.parseInt (JS.js "abc")) = true /\
  ScanRoute.GET (JS.js "abc") (on sample_database)
    = (on sample_database, inr ScanRoute.invalid_scan_id) /\
  ScanRoute.DELETE (JS.js "abc") (on sample_database)
    = (on sample_database, inr ScanRoute.invalid_scan_id) /\
  ScanRoute.PUT Malformed (JS.js "abc") (on sample_database)
    = (on sample_database, inr ScanRoute.invalid_scan_id).
Proof.
  split.
  - vm_compute. reflexivity.
  - apply (unparsable_id_rejected (on sample_database) Malformed (JS.js "abc")).
    vm_compute. reflexivity.
Defined.

(** C5 as the specification words it fails: ["1abc"] is not a numeric
    string, yet GET answers 200 with scan 1 and DELETE removes scan 1,
    each after a statement has reached storage. *)
Lemma non_numeric_id_reaches_storage :
  numeric_string (JS.js "1abc") = false /\
  outcome (ScanRoute.GET (JS.js "1abc")) sample_database
    = inr (Response_json_ok
             (JObject [("success", JBool true); ("scan", json_of_row madrid)])) /\
  statements (ScanRoute.GET (JS.js "1abc")) sample_database = [SelectById] /\
  stored_rows (after (ScanRoute.DELETE (JS.js "1abc")) sample_database)
    = [no_fix] /\
  statements (ScanRoute.DELETE (JS.js "1abc")) sample_database
    = [SelectById; Delete].
Proof. vm_compute. repeat split; reflexivity. Qed.

(** ** Ids with no row *)

(** C6, as the code has it: when the [scans] table holds no row the
    parsed id selects, GET and DELETE answer 404 with
    [{success:false, error:"Scan not found"}], and so does PUT when its
    request body is readable JSON; 404 is not the 500 of a failure, and
    the database is left as it was. *)
Theorem missing_scan_not_found (db : Database) (rows : list Row)
    (request : RequestBody) (id : JS.jsstring) :
  scans db = Some rows ->
  JS.isNaN (JS.parseInt id) = false ->
  (forall r, In r rows -> Sql.id_equals (JS.parseInt id) r = false) ->
  request <> Malformed ->
  (outcome (ScanRoute.GET id) db = inr ScanRoute.scan_not_found /\
   after (ScanRoute.GET id) db = db) /\
  (outcome (ScanRoute.DELETE id) db = inr ScanRoute.scan_not_found /\
   after (ScanRoute.DELETE id) db = db) /\
  (outcome (ScanRoute.PUT request id) db = inr ScanRoute.scan_not_found /\
   after (ScanRoute.PUT request id) db = db) /\
  status ScanRoute.scan_not_found = 404 /\
  (forall what error,
     status ScanRoute.scan_not_found <> status (ScanRoute.failure what error)).
Proof.
  intros Ht Hn Hm Hr.
  unfold outcome, after, ScanRoute.GET, ScanRoute.DELETE, ScanRoute.PUT,
    try_catch, bind.
  cbv zeta. rewrite Hn.
  rewrite (get_scan_missing _ (on db) rows Ht Hm).
  rewrite (get_id_missing _ (on db) rows Ht Hm).
  repeat split; try (cbn; discriminate).
  - destruct request; [congruence | |]; cbn;
      rewrite (get_id_missing _ (on db) rows Ht Hm); reflexivity.
  - destruct request; [congruence | |]; cbn;
      rewrite (get_id_missing _ (on db) rows Ht Hm); reflexivity.
Qed.

Lemma missing_scan_not_found_999999 :
  (outcome (ScanRoute.GET (JS.js "999999")) sample_database
     = inr ScanRoute.scan_not_found /\
   after (ScanRoute.GET (JS.js "999999")) sample_database = sample_database) /\
  (outcome (ScanRoute.DELETE (JS.js "999999")) sample_database
     = inr ScanRoute.scan_not_found /\
   after (ScanRoute.DELETE (JS.js "999999")) sample_database
     = sample_database) /\
  (outcome (ScanRoute.PUT (Fields Body.empty) (JS.js "999999")) sample_database
     = inr ScanRoute.scan_not_found /\
   after (ScanRoute.PUT (Fields Body.empty) (JS.js "999999")) sample_database
     = sample_database).
Proof.
  pose proof (missing_scan_not_found sample_database [madrid; no_fix]
                (Fields Body.empty) (JS.js "999999")) as H.
  destruct H as (Hget & Hdelete & Hput & _).
  - reflexivity.
  - vm_compute. reflexivity.
  - intros r [<- | [<- | []]]; vm_compute; reflexivity.
  - discriminate.
  - exact (conj Hget (conj Hdelete Hput)).
Defined.

(** C6 as the specification words it fails for PUT: the body is read
    before the row is looked up, so a PUT on a missing id whose body is
    not JSON answers 500, not 404. *)
Lemma put_unreadable_body_is_500 :
  JS.isNaN (JS.parseInt (JS.js "999999")) = false /\
  (forall r, In r (stored_rows sample_database) ->
             Sql.id_equals (JS.parseInt (JS.js "999999")) r = false) /\
  outcome (ScanRoute.PUT Malformed (JS.js "999999")) sample_database
    = inr (ScanRoute.failure "Failed to update scan"
             (SyntaxError "Unexpected end of JSON input")) /\
  status (ScanRoute.failure "Failed to update scan"
            (SyntaxError "Unexpected end of JSON input")) = 500.
Proof.
  split; [vm_compute; reflexivity|].
  split; [intros r [<- | [<- | []]]; vm_compute; reflexivity|].
  split; vm_compute; reflexivity.
Qed.

(** ** What PUT changes *)

(** The database after a PUT is the one before, or the one the UPDATE
    statement makes of it. *)
Lemma put_database (db : Database) (request : RequestBody) (id : JS.jsstring) :
  after (ScanRoute.PUT request id) db = db \/
  exists fields changes,
    request = Fields fields /\
    Sql.update_where (Sql.id_equals (JS.parseInt id))
      (Sql.set_coalesce
         (JS.or_null_string (Body.qr_data fields))
         (JS.or_null_number (Body.latitude fields))
         (JS.or_null_number (Body.longitude fields))
         (JS.or_null_number (Body.altitude fields))
         (JS.or_null_number (Body.accuracy fields))) db
    = inr (after (ScanRoute.PUT request id) db, changes).
Proof.
  unfold after, ScanRoute.PUT, try_catch. cbv zeta.
  destruct (JS.isNaN (JS.parseInt id)); [left; reflexivity|].
  destruct request as [| |fields]; [left; reflexivity| |].
  - unfold bind, ScanRoute.request_json, ScanRoute.get_id, bind, query,
      execute, Sql.select_where, ret. cbn.
    destruct (scans db) as [rows|]; [|left; reflexivity]. cbn.
    destruct (map _ (filter _ rows)); left; reflexivity.
  - unfold bind, ScanRoute.request_json, ScanRoute.get_id,
      ScanRoute.get_scan, ScanRoute.property, bind, query, execute,
      Sql.select_where, Sql.update_where, ret. cbn.
    destruct (scans db) as [rows|] eqn:Ht; [|left; reflexivity]. cbn.
    destruct (map _ (filter _ rows)); [left; reflexivity|]. cbn.
    rewrite Ht.
    destruct (existsb _ rows) eqn:Ex; [left; reflexivity|]. cbn.
    right. exists fields. eexists. split; [reflexivity|].
    cbn in Ex. rewrite Ex. reflexivity.
Qed.

Lemma framed_refl (scanId : JS.number) (r : Row) : framed scanId r r.
Proof. repeat split. Qed.

Lemma framed_same (scanId : JS.number) (rows : list Row) :
  Forall2 (framed scanId) rows rows.
Proof.
  induction rows; constructor; [apply framed_refl | assumption].
Qed.

Lemma framed_update (scanId : JS.number) (qr : option string)
    (lat lon alt acc : option JS.number) (rows : list Row) :
  Forall2 (framed scanId) rows
    (map (fun r => if Sql.id_equals scanId r
                   then Sql.set_coalesce qr lat lon alt acc r else r) rows).
Proof.
  induction rows as [|r rows IH]; cbn [map]; constructor; [|exact IH].
  destruct (Sql.id_equals scanId r) eqn:E.
  - repeat split. intros H. congruence.
  - apply framed_refl.
Qed.

(** C10: whatever the request body and the id, PUT leaves every row's id,
    timestamp and created_at as they were, leaves every row the id does
    not select exactly as it was, and neither adds nor removes a row,
    the table or the AUTOINCREMENT counter. *)
Theorem put_frame (db : Database) (request : RequestBody) (id : JS.jsstring) :
  Forall2 (framed (JS.parseInt id))
    (stored_rows db) (stored_rows (after (ScanRoute.PUT request id) db)) /\
  sqlite_sequence (after (ScanRoute.PUT request id) db) = sqlite_sequence db /\
  (scans (after (ScanRoute.PUT request id) db) = None <-> scans db = None).
Proof.
  destruct (put_database db request id) as [-> | (fields & changes & _ & H)].
  - split; [apply framed_same | split; [reflexivity | tauto]].
  - unfold Sql.update_where in H. unfold stored_rows.
    destruct (scans db) as [rows|]; [|discriminate].
    destruct (existsb _ rows); [discriminate|].
    injection H as <- _. cbn.
    split; [apply framed_update | split; [reflexivity|]].
    split; discriminate.
Qed.

(** The arguments the PUT handler binds: a truthy value replaces the
    stored one, a missing one keeps it. *)
Lemma truthy_number_replaces (f : JS.number) (old : option JS.number) :
  JS.truthy_number f = true ->
  Sql.coalesce (Sql.bind_real (JS.or_null_number (Some f))) old = Some f.
Proof.
  intros H. unfold JS.or_null_number. rewrite H.
  unfold JS.truthy_number in H. unfold Sql.bind_real.
  destruct (PrimFloat.is_nan f).
  - rewrite orb_true_r in H. discriminate.
  - destruct (PrimFloat.is_zero f); [discriminate | reflexivity].
Qed.

Lemma truthy_string_replaces (s : string) (old : option string) :
  JS.truthy_string s = true ->
  Sql.coalesce (JS.or_null_string (Some s)) old = Some s.
Proof. intros H. unfold JS.or_null_string. rewrite H. reflexivity. Qed.

Lemma missing_number_keeps (old : option JS.number) :
  Sql.coalesce (Sql.bind_real (JS.or_null_number None)) old = old.
Proof. reflexivity. Qed.

(** A falsy value is bound as NULL, and the COALESCE keeps the old
    value. *)
Lemma falsy_number_keeps (f : JS.number) (old : option JS.number) :
  JS.truthy_number f = false ->
  Sql.coalesce (Sql.bind_real (JS.or_null_number (Some f))) old = old.
Proof. intros H. unfold JS.or_null_number. rewrite H. reflexivity. Qed.

(** C1 on the code: a PUT on the existing scan 1 that provides latitude
    0, longitude 0 and the empty qr_data answers 200 and leaves all three
    stored values as they were; the provided values are not stored. *)
Theorem put_ignores_falsy_values :
  outcome (ScanRoute.PUT
             (Fields {| Body.qr_data := Some "";
                        Body.latitude := Some 0%float;
                        Body.longitude := Some 0%float;
                        Body.altitude := None;
                        Body.accuracy := None |})
             (JS.js "1")) sample_database
    = inr (Response_json_ok
             (JObject [("success", JBool true);
                       ("message", JString "Scan updated successfully");
                       ("scan", json_of_row madrid);
                       ("changes", JInteger 1)])) /\
  after (ScanRoute.PUT
           (Fields {| Body.qr_data := Some "";
                      Body.latitude := Some 0%float;
                      Body.longitude := Some 0%float;
                      Body.altitude := None;
                      Body.accuracy := None |})
           (JS.js "1")) sample_database
    = sample_database /\
  latitude madrid = Some 40.4168%float /\
  qr_data madrid = Some "https://example.com".
Proof. vm_compute. repeat split; reflexivity. Qed.

(** A truthy value, by contrast, is stored, and the other fields stay. *)
Example put_truthy_latitude :
  stored_rows
    (after (ScanRoute.PUT
              (Fields {| Body.qr_data := None;
                         Body.latitude := Some 41.5%float;
                         Body.longitude := None;
                         Body.altitude := None;
                         Body.accuracy := None |})
              (JS.js "1")) sample_database)
    = [ {| id := 1; qr_data := Some "https://example.com";
           latitude := Some 41.5%float; longitude := Some (-3.7038)%float;
           altitude := None; accuracy := None;
           timestamp := Some 1700000000000;
           created_at := Some "2023-11-14 22:13:20" |}; no_fix ].
Proof. vm_compute. reflexivity. Qed.

Lemma update_keeps_not_null (p : Row -> bool) (qr : option string)
    (lat lon alt acc : option JS.number) (rows : list Row) :
  Forall row_ok rows ->
  existsb (fun r => p r &&
                    Sql.is_null (qr_data (Sql.set_coalesce qr lat lon alt acc r)))
    rows = false.
Proof.
  induction 1 as [|r rows [Hq _] _ IH]; [reflexivity|].
  cbn [existsb]. rewrite IH, orb_false_r.
  cbn. unfold present in Hq.
  destruct qr; cbn; [apply andb_false_r|].
  destruct (qr_data r); [apply andb_false_r | congruence].
Qed.

Lemma selected_row_found (p : Row -> bool) (rows : list Row) :
  existsb p rows = true ->
  exists i, hd_error (map id (filter p rows)) = Some i.
Proof.
  induction rows as [|r rows IH]; [discriminate|].
  cbn [existsb filter]. destruct (p r); cbn.
  - intros _. eexists. reflexivity.
  - exact IH.
Qed.

(** What a PUT on an existing scan stores: in every row the id selects,
    each of the five fields becomes the value the handler bound when that
    is not NULL (a truthy value of the body), and stays otherwise. *)
Lemma put_existing_scan (db : Database) (rows : list Row)
    (fields : Body.t) (path_id : JS.jsstring) :
  scans db = Some rows ->
  Forall row_ok rows ->
  JS.isNaN (JS.parseInt path_id) = false ->
  existsb (Sql.id_equals (JS.parseInt path_id)) rows = true ->
  stored_rows (after (ScanRoute.PUT (Fields fields) path_id) db)
  = map (fun r =>
           if Sql.id_equals (JS.parseInt path_id) r
           then Sql.set_coalesce
                  (JS.or_null_string (Body.qr_data fields))
                  (JS.or_null_number (Body.latitude fields))
                  (JS.or_null_number (Body.longitude fields))
                  (JS.or_null_number (Body.altitude fields))
                  (JS.or_null_number (Body.accuracy fields)) r
           else r) rows.
Proof.
  intros Ht Hok Hn Hex.
  destruct (selected_row_found _ _ Hex) as [i Hi].
  unfold after, ScanRoute.PUT, try_catch. cbv zeta. rewrite Hn.
  unfold bind, ScanRoute.request_json, ScanRoute.get_id,
    ScanRoute.get_scan, ScanRoute.property, bind, query, execute,
    Sql.select_where, Sql.update_where, ret. cbn.
  rewrite Ht. cbn. rewrite Hi. cbn. rewrite Ht.
  pose proof (update_keeps_not_null (Sql.id_equals (JS.parseInt path_id))
    (JS.or_null_string (Body.qr_data fields))
    (JS.or_null_number (Body.latitude fields))
    (JS.or_null_number (Body.longitude fields))
    (JS.or_null_number (Body.altitude fields))
    (JS.or_null_number (Body.accuracy fields)) rows Hok) as Hnn.
  cbn in Hnn. rewrite Hnn. reflexivity.
Qed.


(** ** Listing: newest first *)

Lemma key_leb_total (a b : option Z) :
  Sql.key_leb a b = false -> Sql.key_leb b a = true.
Proof.
  destruct a as [x|], b as [y|]; cbn; try congruence.
  rewrite Z.leb_gt, Z.leb_le. lia.
Qed.

Lemma key_leb_trans (a b c : option Z) :
  Sql.key_leb a b = true -> Sql.key_leb b c = true -> Sql.key_leb a c = true.
Proof.
  destruct a as [x|], b as [y|], c as [z|]; cbn; try congruence.
  rewrite !Z.leb_le. lia.
Qed.

Lemma key_leb_antisym (a b : option Z) :
  Sql.key_leb a b = true -> Sql.key_leb b a = true -> a = b.
Proof.
  destruct a as [x|], b as [y|]; cbn; try congruence.
  rewrite !Z.leb_le. intros. f_equal. lia.
Qed.

Lemma insert_desc_perm (r : Row) (l : list Row) :
  Permutation (Sql.insert_desc r l) (r :: l).
Proof.
  induction l as [|x l IH]; cbn [Sql.insert_desc].
  - apply Permutation_refl.
  - destruct (Sql.key_leb (timestamp x) (timestamp r)).
    + apply Permutation_refl.
    + apply perm_trans with (x :: r :: l).
      * apply perm_skip. exact IH.
      * apply perm_swap.
Qed.

Lemma order_by_timestamp_desc_perm (rows : list Row) :
  Permutation (Sql.order_by_timestamp_desc rows) rows.
Proof.
  induction rows as [|r rows IH]; cbn.
  - apply perm_nil.
  - apply perm_trans with (r :: Sql.order_by_timestamp_desc rows).
    + apply insert_desc_perm.
    + apply perm_skip. exact IH.
Qed.

Lemma insert_desc_sorted (r : Row) (l : list Row) :
  StronglySorted not_older l -> StronglySorted not_older (Sql.insert_desc r l).
Proof.
  induction l as [|x l IH]; intros Hs; cbn [Sql.insert_desc].
  - constructor; constructor.
  - inversion Hs as [|? ? Hl Hx]; subst.
    destruct (Sql.key_leb (timestamp x) (timestamp r)) eqn:E.
    + constructor; [exact Hs|].
      constructor; [exact E|].
      rewrite Forall_forall in Hx |- *. intros y Hy.
      unfold not_older in *.
      apply key_leb_trans with (timestamp x); [apply Hx; exact Hy | exact E].
    + constructor; [apply IH; exact Hl|].
      apply Permutation_Forall with (r :: l).
      * apply Permutation_sym, insert_desc_perm.
      * constructor; [apply key_leb_total; exact E | exact Hx].
Qed.

Lemma order_by_timestamp_desc_sorted (rows : list Row) :
  StronglySorted not_older (Sql.order_by_timestamp_desc rows).
Proof.
  induction rows as [|r rows IH]; cbn.
  - constructor.
  - apply insert_desc_sorted. exact IH.
Qed.

(** With pairwise distinct keys a descending list descends strictly. *)
Lemma sorted_distinct_strict (l : list Row) :
  StronglySorted not_older l ->
  NoDup (map timestamp l) ->
  StronglySorted newer l.
Proof.
  induction l as [|a l IH]; intros Hs Hd; [constructor|].
  inversion Hs as [|? ? Hl Ha]; subst.
  cbn [map] in Hd. inversion Hd as [|? ? Hnin Hd']; subst.
  constructor; [apply IH; assumption|].
  rewrite Forall_forall in Ha |- *. intros b Hb.
  unfold newer. unfold not_older in Ha.
  destruct (Sql.key_leb (timestamp a) (timestamp b)) eqn:E; [|reflexivity].
  exfalso. apply Hnin.
  rewrite (key_leb_antisym _ _ E (Ha b Hb)).
  apply in_map. exact Hb.
Qed.

Lemma simple_getScans_on_table (w : World) (rows : list Row) :
  scans (database w) = Some rows ->
  SimpleStore.getScans w =
    ({| database := database w;
        storage_log := storage_log w ++ [SelectAll] |},
     inr (Sql.order_by_timestamp_desc rows)).
Proof.
  intros H. unfold SimpleStore.getScans.
  apply query_on_table. unfold Sql.select_all. rewrite H. reflexivity.
Qed.

Lemma create_table_scans (db : Database) :
  scans (Sql.create_table_if_not_exists db) = Some (stored_rows db).
Proof.
  unfold Sql.create_table_if_not_exists, stored_rows.
  destruct (scans db) eqn:E; [exact E | reflexivity].
Qed.

(** C4: on every database, [getScans] (the guarded one directly, the
    simple one once [initDatabase] has run) returns without error a list
    that holds exactly the stored rows, in descending order of timestamp;
    the order is strict when the timestamps are pairwise distinct, and
    the list is empty when there is no row. *)
Theorem getScans_newest_first (db : Database) :
  let result := Sql.order_by_timestamp_desc (stored_rows db) in
  outcome GuardedStore.getScans db = inr result /\
  outcome (SimpleStore.initDatabase ;;; SimpleStore.getScans) db = inr result /\
  Permutation result (stored_rows db) /\
  StronglySorted not_older result /\
  (NoDup (map timestamp (stored_rows db)) -> StronglySorted newer result) /\
  (stored_rows db = [] -> result = []).
Proof.
  cbv zeta. repeat split.
  - unfold outcome, GuardedStore.getScans, GuardedStore.initDatabase,
      try_catch, bind, execute. cbn.
    unfold query, execute, Sql.select_all. cbn.
    rewrite create_table_scans. reflexivity.
  - unfold outcome, SimpleStore.initDatabase, try_catch, bind, execute. cbn.
    rewrite (simple_getScans_on_table _ (stored_rows db))
      by apply create_table_scans.
    reflexivity.
  - apply order_by_timestamp_desc_perm.
  - apply order_by_timestamp_desc_sorted.
  - intros Hd. apply sorted_distinct_strict.
    + apply order_by_timestamp_desc_sorted.
    + apply (Permutation_NoDup (l := map timestamp (stored_rows db))); [|exact Hd].
      apply Permutation_map, Permutation_sym, order_by_timestamp_desc_perm.
  - intros ->. reflexivity.
Qed.

Example getScans_sample :
  outcome SimpleStore.getScans sample_database = inr [no_fix; madrid].
Proof. vm_compute. reflexivity. Qed.

(** Without [initDatabase] the simple [getScans] rejects on a fresh
    file. *)
Example simple_getScans_before_init :
  outcome SimpleStore.getScans empty_database = inl (SqlError NoSuchTable).
Proof. reflexivity. Qed.

(** ** Initialisation *)

Lemma create_table_idempotent (db : Database) :
  Sql.create_table_if_not_exists (Sql.create_table_if_not_exists db)
  = Sql.create_table_if_not_exists db.
Proof.
  unfold Sql.create_table_if_not_exists.
  destruct (scans db) eqn:E; cbn; [rewrite E|]; reflexivity.
Qed.

Lemma create_table_iter (n : nat) (db : Database) :
  Nat.iter (S n) Sql.create_table_if_not_exists db
  = Sql.create_table_if_not_exists db.
Proof.
  induction n as [|n IH]; [reflexivity|].
  change (Nat.iter (S (S n)) Sql.create_table_if_not_exists db)
    with (Sql.create_table_if_not_exists
            (Nat.iter (S n) Sql.create_table_if_not_exists db)).
  rewrite IH. apply create_table_idempotent.
Qed.

Lemma guarded_init_times (n : nat) (w : World) :
  exists log,
    times n GuardedStore.initDatabase w
    = ({| database := Nat.iter n Sql.create_table_if_not_exists (database w);
          storage_log := log |}, inr tt).
Proof.
  revert w. induction n as [|n IH]; intros w.
  - exists (storage_log w). destruct w. reflexivity.
  - cbn [times]. unfold bind at 1.
    unfold GuardedStore.initDatabase at 1, execute. cbn.
    destruct (IH {| database := Sql.create_table_if_not_exists (database w);
                    storage_log := storage_log w ++ [CreateTable] |})
      as [log ->].
    exists log. cbn [database]. rewrite <- Nat.iter_succ_r. reflexivity.
Qed.

Lemma simple_init_times (n : nat) (w : World) :
  exists log,
    times n SimpleStore.initDatabase w
    = ({| database := Nat.iter n Sql.create_table_if_not_exists (database w);
          storage_log := log |}, inr tt).
Proof.
  revert w. induction n as [|n IH]; intros w.
  - exists (storage_log w). destruct w. reflexivity.
  - cbn [times]. unfold bind at 1.
    unfold SimpleStore.initDatabase at 1, try_catch, execute. cbn.
    destruct (IH {| database := Sql.create_table_if_not_exists (database w);
                    storage_log := storage_log w ++ [CreateTable] |})
      as [log ->].
    exists log. cbn [database]. rewrite <- Nat.iter_succ_r. reflexivity.
Qed.

(** C8: on every database, one call of [initDatabase] creates the table
    if it is missing and keeps the stored rows and the counter; any
    number of further calls returns without error and leaves the database
    exactly as the first call left it. *)
Theorem initDatabase_idempotent (db : Database) (n : nat) :
  let once := Sql.create_table_if_not_exists db in
  after (times (S n) GuardedStore.initDatabase) db = once /\
  outcome (times (S n) GuardedStore.initDatabase) db = inr tt /\
  after (times (S n) SimpleStore.initDatabase) db = once /\
  outcome (times (S n) SimpleStore.initDatabase) db = inr tt /\
  scans once = Some (stored_rows db) /\
  sqlite_sequence once = sqlite_sequence db.
Proof.
  cbv zeta. unfold after, outcome.
  destruct (guarded_init_times (S n) (on db)) as [log1 ->].
  destruct (simple_init_times (S n) (on db)) as [log2 ->].
  cbn [fst snd database on]. rewrite create_table_iter.
  repeat split.
  - apply create_table_scans.
  - unfold Sql.create_table_if_not_exists. destruct (scans db); reflexivity.
Qed.

Example init_keeps_sample :
  after (times 3 GuardedStore.initDatabase) sample_database = sample_database.
Proof. reflexivity. Qed.

(** ** Deleting *)

Lemma count_positive {A : Type} (p : A -> bool) (l : list A) :
  (0 <? Z.of_nat (List.length (filter p l))) = existsb p l.
Proof.
  induction l as [|x l IH]; [reflexivity|].
  cbn [filter existsb]. destruct (p x); cbn [orb].
  - cbn [List.length]. apply Z.ltb_lt. lia.
  - exact IH.
Qed.

(** X9: the guarded [deleteScan] tells whether a row was removed, never
    throws, and removes exactly the rows with the id. *)
Lemma guarded_deleteScan_reports (i : Z) (db : Database) :
  outcome (GuardedStore.deleteScan i) db
    = inr (existsb (Sql.id_is i) (stored_rows db)) /\
  stored_rows (after (GuardedStore.deleteScan i) db)
    = filter (fun r => negb (Sql.id_is i r)) (stored_rows db).
Proof.
  unfold outcome, after, GuardedStore.deleteScan, GuardedStore.initDatabase,
    try_catch, bind, execute, Sql.delete_where. cbn.
  rewrite create_table_scans. cbn.
  rewrite count_positive. split; reflexivity.
Qed.

(** The simple [deleteScan] resolves [true] whenever the statement ran,
    whether or not it removed a row. *)
Lemma simple_deleteScan_on_table (i : Z) (db : Database) (rows : list Row) :
  scans db = Some rows ->
  outcome (SimpleStore.deleteScan i) db = inr true.
Proof.
  intros H.
  unfold outcome, SimpleStore.deleteScan, try_catch, bind, execute,
    Sql.delete_where. cbn. rewrite H. reflexivity.
Qed.

(** C3 on the code: the simple data layer's [deleteScan] on the id
    999999, which no row has, resolves [true] and removes nothing. *)
Theorem simple_deleteScan_missing_id :
  existsb (Sql.id_is 999999) (stored_rows sample_database) = false /\
  outcome (SimpleStore.deleteScan 999999) sample_database = inr true /\
  after (SimpleStore.deleteScan 999999) sample_database = sample_database.
Proof. vm_compute. repeat split; reflexivity. Qed.

Example guarded_deleteScan_missing_id :
  outcome (GuardedStore.deleteScan 999999) sample_database = inr false /\
  outcome (GuardedStore.deleteScan 1) sample_database = inr true.
Proof. vm_compute. split; reflexivity. Qed.

(** ** Creating, then listing *)

(** C2 on the code: after [initDatabase] on a fresh file, the simple
    [addScan] of a scan taken at latitude 0 followed by [getScans] lists
    one row whose latitude is NULL, not the 0 that was given. *)
Theorem simple_addScan_loses_zero_latitude :
  ScanData.latitude equator_scan = Some 0%float /\
  outcome (SimpleStore.initDatabase ;;;
           SimpleStore.addScan "2023-11-14 22:13:20" equator_scan ;;;
           SimpleStore.getScans) empty_database
    = inr [ {| id := 1; qr_data := Some "https://example.com";
               latitude := None; longitude := Some (-78.4678)%float;
               altitude := None; accuracy := None;
               timestamp := Some 1700000000000;
               created_at := Some "2023-11-14 22:13:20" |} ].
Proof. vm_compute. split; reflexivity. Qed.

(** The specification's scenario, where every number given is truthy. *)
Example simple_addScan_example :
  outcome (SimpleStore.initDatabase ;;;
           SimpleStore.addScan "2023-11-14 22:13:20" example_scan ;;;
           SimpleStore.getScans) empty_database
    = inr [madrid].
Proof. vm_compute. reflexivity. Qed.

(** SQLite hands a stored -0 back as +0. *)
Example guarded_addScan_negative_zero :
  outcome (GuardedStore.addScan "2023-11-14 22:13:20"
             {| ScanData.qr_data := "https://example.com";
                ScanData.latitude := Some PrimFloat.neg_zero;
                ScanData.longitude := None;
                ScanData.altitude := None; ScanData.accuracy := None;
                ScanData.timestamp := 1700000000000 |} ;;;
           GuardedStore.getScans) empty_database
    = inr [ {| id := 1; qr_data := Some "https://example.com";
               latitude := Some PrimFloat.zero; longitude := None;
               altitude := None; accuracy := None;
               timestamp := Some 1700000000000;
               created_at := Some "2023-11-14 22:13:20" |} ].
Proof. vm_compute. reflexivity. Qed.

(** The guarded [addScan] stores latitude 0 as given. *)
Example guarded_addScan_keeps_zero_latitude :
  outcome (GuardedStore.addScan "2023-11-14 22:13:20" equator_scan ;;;
           GuardedStore.getScans) empty_database
    = inr [ {| id := 1; qr_data := Some "https://example.com";
               latitude := Some 0%float; longitude := Some (-78.4678)%float;
               altitude := None; accuracy := None;
               timestamp := Some 1700000000000;
               created_at := Some "2023-11-14 22:13:20" |} ].
Proof. vm_compute. reflexivity. Qed.

(** On a table with room for one more rowid, the simple [addScan]
    followed by [getScans] lists a row with a fresh id whose text and
    timestamp are the ones given and whose numbers are the ones given,
    each replaced by NULL when it is falsy. *)
Lemma simple_addScan_listed (now : string) (d : ScanData.t)
    (db : Database) (rows : list Row) :
  scans db = Some rows ->
  Sql.next_rowid db rows <= Sql.max_int64 ->
  exists listed,
    outcome (SimpleStore.addScan now d ;;; SimpleStore.getScans) db
      = inr listed /\
    In {| id := Sql.next_rowid db rows;
          qr_data := Some (ScanData.qr_data d);
          latitude := Sql.bind_real (JS.or_null_number (ScanData.latitude d));
          longitude := Sql.bind_real (JS.or_null_number (ScanData.longitude d));
          altitude := Sql.bind_real (JS.or_null_number (ScanData.altitude d));
          accuracy := Sql.bind_real (JS.or_null_number (ScanData.accuracy d));
          timestamp := Some (ScanData.timestamp d);
          created_at := Some now |} listed.
Proof.
  intros Ht Hroom.
  unfold outcome, SimpleStore.addScan, SimpleStore.getScans, bind, query,
    execute, Sql.insert. cbn. rewrite Ht.
  destruct (Sql.max_int64 <? Sql.next_rowid db rows) eqn:E.
  { apply Z.ltb_lt in E. lia. }
  cbn. eexists. split; [reflexivity|].
  eapply Permutation_in.
  - apply Permutation_sym. apply order_by_timestamp_desc_perm.
  - apply in_or_app. right. left. reflexivity.
Qed.

(** ** The invariants of the table *)

Lemma id_le_max_rowid (rows : list Row) (r : Row) :
  In r rows -> id r <= Sql.max_rowid rows.
Proof.
  induction rows as [|x rows IH]; intros H; [contradiction|].
  change (Sql.max_rowid (x :: rows))
    with (Z.max (id x) (Sql.max_rowid rows)).
  destruct H as [-> | H]; [lia|]. specialize (IH H). lia.
Qed.

Lemma next_rowid_fresh (db : Database) (rows : list Row) :
  ~ In (Sql.next_rowid db rows) (map id rows).
Proof.
  intros H. apply in_map_iff in H. destruct H as (r & E & Hr).
  apply id_le_max_rowid in Hr. unfold Sql.next_rowid in E. lia.
Qed.

Lemma map_id_filter (selected : Z -> bool) (rows : list Row) :
  map id (filter (fun r => selected (id r)) rows)
  = filter selected (map id rows).
Proof.
  induction rows as [|r rows IH]; [reflexivity|].
  cbn. destruct (selected (id r)); cbn; rewrite IH; reflexivity.
Qed.

Lemma map_id_update (p : Row -> bool) (qr : option string)
    (lat lon alt acc : option JS.number) (rows : list Row) :
  map id (map (fun r => if p r then Sql.set_coalesce qr lat lon alt acc r
                        else r) rows)
  = map id rows.
Proof.
  induction rows as [|r rows IH]; [reflexivity|].
  cbn. rewrite IH. destruct (p r); reflexivity.
Qed.

Lemma filter_all {A : Type} (l : list A) : filter (fun _ => true) l = l.
Proof. induction l as [|x l IH]; cbn; [|rewrite IH]; reflexivity. Qed.

Lemma ids_kept_same (old new : list Row) :
  map id new = map id old -> ids_kept old new.
Proof.
  intros H. exists (fun _ => true), []. split; [|constructor].
  rewrite filter_all, app_nil_r. exact H.
Qed.

Lemma coalesce_present {A : Type} (x y : option A) :
  present y -> present (Sql.coalesce x y).
Proof. unfold present. destruct x; cbn; congruence. Qed.

Lemma set_coalesce_ok (qr : option string)
    (lat lon alt acc : option JS.number) (r : Row) :
  row_ok r -> row_ok (Sql.set_coalesce qr lat lon alt acc r).
Proof.
  intros [Hq Ht]. split; cbn; [apply coalesce_present|]; assumption.
Qed.

(** Each statement keeps the invariants and the ids. *)
Lemma statement_effect_ok (db db' : Database) :
  statement_effect db db' ->
  database_ok db ->
  database_ok db' /\ ids_kept (stored_rows db) (stored_rows db').
Proof.
  intros Hstep [Hnd Hok].
  destruct Hstep
    as [ | | now qr lat lon alt acc ts db' rowid H
         | selected db' changes H
         | selected qr lat lon alt acc db' changes H ].
  - split; [split; assumption | apply ids_kept_same; reflexivity].
  - assert (E : stored_rows (Sql.create_table_if_not_exists db) = stored_rows db).
    { unfold stored_rows at 1. rewrite create_table_scans. reflexivity. }
    unfold database_ok. rewrite E.
    split; [split; assumption | apply ids_kept_same; reflexivity].
  - unfold Sql.insert in H. unfold database_ok, stored_rows in *.
    destruct (scans db) as [rows|]; [|discriminate].
    destruct qr as [q|]; [|discriminate].
    destruct ts as [t|]; [|discriminate].
    destruct (Sql.max_int64 <? Sql.next_rowid db rows); [discriminate|].
    injection H as <- _. cbn [scans].
    split; [split|].
    + rewrite map_app. cbn [map id].
      apply (Permutation_NoDup (l := Sql.next_rowid db rows :: map id rows)).
      * apply Permutation_cons_append.
      * constructor; [apply next_rowid_fresh | exact Hnd].
    + apply Forall_app. split; [exact Hok|].
      constructor; [|constructor]. split; cbn; discriminate.
    + exists (fun _ => true), [Sql.next_rowid db rows].
      rewrite filter_all, map_app. split; [reflexivity|].
      constructor; [apply next_rowid_fresh | constructor].
  - unfold Sql.delete_where in H. unfold database_ok, stored_rows in *.
    destruct (scans db) as [rows|]; [|discriminate].
    injection H as <- _. cbn [scans].
    rewrite (map_id_filter (fun i => negb (selected i))).
    split; [split|].
    + apply NoDup_filter. exact Hnd.
    + rewrite Forall_forall in Hok |- *. intros r Hr.
      apply filter_In in Hr. apply Hok, Hr.
    + exists (fun i => negb (selected i)), [].
      rewrite app_nil_r.
      split; [apply (map_id_filter (fun i => negb (selected i))) | constructor].
  - unfold Sql.update_where in H. unfold database_ok, stored_rows in *.
    destruct (scans db) as [rows|]; [|discriminate].
    destruct (existsb _ rows); [discriminate|].
    injection H as <- _. cbn [scans].
    split; [split|].
    + rewrite map_id_update. exact Hnd.
    + rewrite Forall_forall in Hok |- *. intros r Hr.
      apply in_map_iff in Hr. destruct Hr as (r0 & <- & Hr0).
      destruct (selected (id r0)); [apply set_coalesce_ok|]; apply Hok, Hr0.
    + apply ids_kept_same, map_id_update.
Qed.

(** Every call applies at most one statement, to the database as it is or
    as [CREATE TABLE IF NOT EXISTS] leaves it. *)
Lemma apply_statement (op : operation) (db : Database) :
  exists db0,
    (db0 = db \/ db0 = Sql.create_table_if_not_exists db) /\
    statement_effect db0 (apply op db).
Proof.
  destruct op as [ | | now d | i | | | now d | i | i | i | request i ];
    cbn [apply].
  - exists db. split; [left; reflexivity|]. apply effect_create.
  - exists db. split; [left; reflexivity|].
    unfold SimpleStore.getScans. run_store.
    destruct (Sql.select_all db); apply effect_none.
  - exists db. split; [left; reflexivity|].
    unfold SimpleStore.addScan. run_store.
    destruct (Sql.insert _ _ _ _ _ _ _ db) as [e|[db' rowid]] eqn:E; cbn.
    + apply effect_none.
    + destruct (Sql.select_where _ db'); cbn; eapply effect_insert; exact E.
  - exists db. split; [left; reflexivity|].
    unfold SimpleStore.deleteScan. run_store.
    destruct (Sql.delete_where _ db) as [e|[db' n]] eqn:E; cbn.
    + apply effect_none.
    + apply (effect_delete db (fun x => x =? i) db' n). exact E.
  - exists db. split; [left; reflexivity|]. apply effect_create.
  - exists db. split; [left; reflexivity|].
    unfold GuardedStore.getScans, GuardedStore.initDatabase. run_store.
    destruct (Sql.select_all _); apply effect_create.
  - exists (Sql.create_table_if_not_exists db). split; [right; reflexivity|].
    unfold GuardedStore.addScan, GuardedStore.initDatabase. run_store.
    destruct (Sql.insert _ _ _ _ _ _ _ _) as [e|[db' rowid]] eqn:E; cbn.
    + apply effect_none.
    + destruct (rowid =? 0); cbn; eapply effect_insert; exact E.
  - exists (Sql.create_table_if_not_exists db). split; [right; reflexivity|].
    unfold GuardedStore.deleteScan, GuardedStore.initDatabase. run_store.
    destruct (Sql.delete_where _ _) as [e|[db' n]] eqn:E; cbn.
    + apply effect_none.
    + apply (effect_delete _ (fun x => x =? i) db' n). exact E.
  - exists db. split; [left; reflexivity|].
    unfold ScanRoute.GET, ScanRoute.get_scan. cbv zeta.
    destruct (JS.isNaN (JS.parseInt i)); run_store; [apply effect_none|].
    destruct (Sql.select_where _ db) as [e|rows]; cbn; [apply effect_none|].
    destruct (hd_error rows); apply effect_none.
  - exists db. split; [left; reflexivity|].
    unfold ScanRoute.DELETE, ScanRoute.get_id. cbv zeta.
    destruct (JS.isNaN (JS.parseInt i)); run_store; [apply effect_none|].
    destruct (Sql.select_where _ db) as [e|rows]; cbn; [apply effect_none|].
    destruct (hd_error (map id rows)); cbn; [|apply effect_none].
    destruct (Sql.delete_where _ db) as [e|[db' n]] eqn:E; cbn.
    + apply effect_none.
    + apply (effect_delete db
               (fun x => match JS.integer_value (JS.parseInt i) with
                         | Some n => x =? n
                         | None => false
                         end) db' n).
      exact E.
  - exists db. split; [left; reflexivity|].
    destruct (put_database db request i) as [-> | (fields & changes & _ & H)].
    + apply effect_none.
    + eapply (effect_update db
                (fun x => match JS.integer_value (JS.parseInt i) with
                          | Some n => x =? n
                          | None => false
                          end)).
      exact H.
Qed.

Lemma apply_ok (op : operation) (db : Database) :
  database_ok db ->
  database_ok (apply op db) /\
  ids_kept (stored_rows db) (stored_rows (apply op db)).
Proof.
  intros Hok.
  destruct (apply_statement op db) as (db0 & Hdb0 & Hstep).
  assert (E : stored_rows db0 = stored_rows db).
  { destruct Hdb0 as [-> | ->]; [reflexivity|].
    unfold stored_rows at 1. rewrite create_table_scans. reflexivity. }
  rewrite <- E. apply statement_effect_ok; [exact Hstep|].
  unfold database_ok. rewrite E. exact Hok.
Qed.

Lemma reachable_ok (db : Database) : reachable db -> database_ok db.
Proof.
  induction 1 as [|db op _ IH].
  - split; constructor.
  - apply apply_ok. exact IH.
Qed.

(** An INSERT that succeeds appends one row with a new id. *)
Lemma insert_rows (now : string) (qr : option string)
    (lat lon alt acc : option JS.number) (ts : option Z)
    (db db' : Database) (rowid : Z) :
  Sql.insert now qr lat lon alt acc ts db = inr (db', rowid) ->
  exists row,
    stored_rows db' = stored_rows db ++ [row] /\
    ~ In (id row) (map id (stored_rows db)).
Proof.
  unfold Sql.insert, stored_rows. intros H.
  destruct (scans db) as [rows|]; [|discriminate].
  destruct qr as [q|]; [|discriminate].
  destruct ts as [t|]; [|discriminate].
  destruct (Sql.max_int64 <? Sql.next_rowid db rows); [discriminate|].
  injection H as <- _. cbn [scans].
  eexists. split; [reflexivity|]. cbn [id]. apply next_rowid_fresh.
Qed.

(** A DELETE that succeeds leaves the rows it does not select. *)
Lemma delete_rows (p : Row -> bool) (db db' : Database) (changes : Z) :
  Sql.delete_where p db = inr (db', changes) ->
  stored_rows db' = filter (fun r => negb (p r)) (stored_rows db).
Proof.
  unfold Sql.delete_where, stored_rows. intros H.
  destruct (scans db) as [rows|]; [|discriminate].
  injection H as <- _. reflexivity.
Qed.

Lemma stored_rows_create (db : Database) :
  stored_rows (Sql.create_table_if_not_exists db) = stored_rows db.
Proof. unfold stored_rows at 1. rewrite create_table_scans. reflexivity. Qed.

Lemma delete_no_table (p : Row -> bool) (db : Database) (e : sql_error) :
  Sql.delete_where p db = inl e -> stored_rows db = [].
Proof.
  unfold Sql.delete_where, stored_rows.
  destruct (scans db); [discriminate | reflexivity].
Qed.

(** Call by call, what becomes of the stored rows. *)
Lemma apply_rows (op : operation) (db : Database) :
  rows_after op (stored_rows db) (stored_rows (apply op db)).
Proof.
  destruct op as [ | | now d | i | | | now d | i | i | i | request i ];
    cbn [apply rows_after].
  - apply stored_rows_create.
  - unfold SimpleStore.getScans. run_store.
    destruct (Sql.select_all db); reflexivity.
  - unfold SimpleStore.addScan. run_store.
    destruct (Sql.insert _ _ _ _ _ _ _ db) as [e|[db' rowid]] eqn:E; cbn.
    + left. reflexivity.
    + right. destruct (insert_rows _ _ _ _ _ _ _ _ _ _ E) as (row & Hr & Hf).
      exists row. split; [|exact Hf].
      destruct (Sql.select_where _ db'); exact Hr.
  - unfold SimpleStore.deleteScan. run_store.
    destruct (Sql.delete_where _ db) as [e|[db' n]] eqn:E; cbn.
    + rewrite (delete_no_table _ _ _ E). reflexivity.
    + apply (delete_rows _ _ _ _ E).
  - apply stored_rows_create.
  - unfold GuardedStore.getScans, GuardedStore.initDatabase. run_store.
    destruct (Sql.select_all _); apply stored_rows_create.
  - unfold GuardedStore.addScan, GuardedStore.initDatabase. run_store.
    destruct (Sql.insert _ _ _ _ _ _ _ _) as [e|[db' rowid]] eqn:E; cbn.
    + left. apply stored_rows_create.
    + right. destruct (insert_rows _ _ _ _ _ _ _ _ _ _ E) as (row & Hr & Hf).
      rewrite stored_rows_create in Hr, Hf.
      exists row. split; [|exact Hf].
      destruct (rowid =? 0); exact Hr.
  - unfold GuardedStore.deleteScan, GuardedStore.initDatabase. run_store.
    destruct (Sql.delete_where _ _) as [e|[db' n]] eqn:E; cbn.
    + apply delete_no_table in E. rewrite stored_rows_create in E.
      rewrite stored_rows_create, E. reflexivity.
    + rewrite (delete_rows _ _ _ _ E). apply f_equal, stored_rows_create.
  - unfold ScanRoute.GET, ScanRoute.get_scan. cbv zeta.
    destruct (JS.isNaN (JS.parseInt i)); run_store; [reflexivity|].
    destruct (Sql.select_where _ db) as [e|rows]; cbn; [reflexivity|].
    destruct (hd_error rows); reflexivity.
  - unfold ScanRoute.DELETE, ScanRoute.get_id. cbv zeta.
    destruct (JS.isNaN (JS.parseInt i)); run_store.
    { exists (fun _ => true). symmetry. apply filter_all. }
    destruct (Sql.select_where _ db) as [e|rows]; cbn.
    { exists (fun _ => true). symmetry. apply filter_all. }
    destruct (hd_error (map id rows)); cbn.
    + destruct (Sql.delete_where _ db) as [e|[db' n]] eqn:E; cbn.
      * exists (fun _ => true). symmetry. apply filter_all.
      * exists (fun x => negb match JS.integer_value (JS.parseInt i) with
                              | Some n => x =? n
                              | None => false
                              end).
        apply (delete_rows _ _ _ _ E).
    + exists (fun _ => true). symmetry. apply filter_all.
  - destruct (put_database db request i) as [-> | (fields & changes & _ & H)].
    + apply framed_same.
    + unfold Sql.update_where in H. unfold stored_rows.
      destruct (scans db) as [rows|]; [|discriminate].
      destruct (existsb _ rows); [discriminate|].
      injection H as <- _. cbn [scans]. apply framed_update.
Qed.

(** C7, as the code has it: in every reachable database the ids are
    pairwise distinct and qr_data and timestamp are present in every row,
    and every call keeps this.  No call changes the id of a row: an
    initialisation, a listing or a lookup leaves the rows as they are; an
    addition leaves them as they are and may append one row with a new
    id; a deletion leaves every row it does not remove as it is; an
    update leaves every row in its place with its id. *)
Theorem invariants_kept (db : Database) :
  reachable db ->
  database_ok db /\
  forall op,
    database_ok (apply op db) /\
    ids_kept (stored_rows db) (stored_rows (apply op db)) /\
    rows_after op (stored_rows db) (stored_rows (apply op db)).
Proof.
  intros H. pose proof (reachable_ok db H) as Hok.
  split; [exact Hok|]. intros op.
  destruct (apply_ok op db Hok) as [Hok' Hids].
  split; [exact Hok'|]. split; [exact Hids | apply apply_rows].
Qed.

Lemma invariants_kept_half_located :
  reachable half_located /\
  database_ok half_located /\
  forall op,
    database_ok (apply op half_located) /\
    ids_kept (stored_rows half_located) (stored_rows (apply op half_located)) /\
    rows_after op (stored_rows half_located)
      (stored_rows (apply op half_located)).
Proof.
  assert (H : reachable half_located).
  { unfold half_located. repeat apply reachable_step. apply reachable_empty. }
  split; [exact H|]. exact (invariants_kept half_located H).
Defined.

(** C7 as the specification words it fails: the pairing of latitude and
    longitude is not kept.  A scan stored with no location and then
    updated with a latitude alone is reachable, and holds a latitude with
    no longitude. *)
Lemma pairing_not_kept :
  reachable half_located /\
  stored_rows half_located
    = [ {| id := 1; qr_data := Some "WIFI:S:cafe;;";
           latitude := Some 40.4168%float; longitude := None;
           altitude := None; accuracy := None;
           timestamp := Some 1700000060000;
           created_at := Some "2023-11-14 22:14:20" |} ] /\
  ~ Forall paired (stored_rows half_located).
Proof.
  split; [|split].
  - unfold half_located. repeat apply reachable_step. apply reachable_empty.
  - vm_compute. reflexivity.
  - intros H. apply Forall_inv in H. unfold paired, present in H.
    vm_compute in H. destruct H as [H _]. apply H; [discriminate | reflexivity].
Qed.

(** ** The capture handler *)

(** [saveScanToDatabase] returns whatever the request does. *)
Lemma saveScanToDatabase_returns (env : Scanner.Env)
    (scanResult : Scanner.ScanResult) (trace : list Scanner.effect) :
  snd (Scanner.saveScanToDatabase env scanResult trace) = inr tt.
Proof.
  run_ui.
  destruct (Scanner.fetch env) as [error | ok json]; [reflexivity|].
  destruct ok; cbn; [|reflexivity].
  destruct json as [error | []]; reflexivity.
Qed.

(** The capture handler returns on every event, whatever the location
    service and the network do. *)
Lemma handleBarCodeScanned_returns (env : Scanner.Env) (data : string)
    (trace : list Scanner.effect) :
  snd (Scanner.handleBarCodeScanned env data trace) = inr tt.
Proof.
  unfold Scanner.handleBarCodeScanned.
  destruct (Scanner.locationPermission env).
  - destruct (Scanner.getCurrentPositionAsync env) as [error | l];
      run_ui; [reflexivity|].
    destruct (Scanner.fetch env) as [error | ok json]; [reflexivity|].
    destruct ok; cbn; [|reflexivity].
    destruct json as [error | []]; reflexivity.
  - run_ui.
    destruct (Scanner.fetch env) as [error | ok json]; [reflexivity|].
    destruct ok; cbn; [|reflexivity].
    destruct json as [error | []]; reflexivity.
Qed.

(** C9, as the code has it: when the persistence call of a capture fails
    (the POST is rejected, answers with a status that is not ok, or has a
    body that cannot be read), the failure is caught and logged with
    [console.error] by [saveScanToDatabase], and the capture handler
    returns normally: nothing propagates out of it. *)
Theorem persistence_failure_contained (env : Scanner.Env) (data : string) :
  Scanner.persistence_fails env = true ->
  location_acquired env = true ->
  snd (Scanner.handleBarCodeScanned env data []) = inr tt /\
  existsb Scanner.logs_save_error
    (fst (Scanner.handleBarCodeScanned env data [])) = true.
Proof.
  intros Hfail Hloc.
  split; [apply handleBarCodeScanned_returns|].
  unfold Scanner.persistence_fails in Hfail.
  unfold location_acquired in Hloc.
  unfold Scanner.handleBarCodeScanned.
  destruct (Scanner.locationPermission env); cbn in Hloc.
  - destruct (Scanner.getCurrentPositionAsync env) as [error | l];
      [discriminate|]. run_ui.
    destruct (Scanner.fetch env) as [error | ok json]; [reflexivity|].
    destruct ok; cbn in *; [|reflexivity].
    destruct json as [error | []]; [reflexivity | discriminate].
  - run_ui.
    destruct (Scanner.fetch env) as [error | ok json]; [reflexivity|].
    destruct ok; cbn in *; [|reflexivity].
    destruct json as [error | []]; [reflexivity | discriminate].
Qed.

Lemma persistence_failure_contained_offline :
  Scanner.persistence_fails offline = true /\
  location_acquired offline = true /\
  snd (Scanner.handleBarCodeScanned offline "https://example.com" [])
    = inr tt /\
  existsb Scanner.logs_save_error
    (fst (Scanner.handleBarCodeScanned offline "https://example.com" []))
    = true.
Proof.
  split; [reflexivity|]. split; [reflexivity|].
  apply (persistence_failure_contained offline "https://example.com");
    reflexivity.
Defined.

(** C9 as the specification words it fails: with the network down the
    capture logs the failure and then shows the success banner; no alert
    and no banner tells the user that the scan was not saved. *)
Lemma persistence_failure_not_surfaced :
  Scanner.persistence_fails offline = true /\
  Scanner.handleBarCodeScanned offline "https://example.com" []
    = ([ Scanner.SetLastScan
           {| Scanner.data := "https://example.com";
              Scanner.location := None;
              Scanner.timestamp := 1700000000000 |};
         Scanner.SetScanCount;
         Scanner.Fetch "/scans" "POST"
           {| ScanData.qr_data := "https://example.com";
              ScanData.latitude := None; ScanData.longitude := None;
              ScanData.altitude := None; ScanData.accuracy := None;
              ScanData.timestamp := 1700000000000 |};
         Scanner.ConsoleError "Error saving scan:"
           (TypeError "Network request failed");
         Scanner.ShowNotification Scanner.success_message ],
       inr tt) /\
  existsb Scanner.reports_failure
    (fst (Scanner.handleBarCodeScanned offline "https://example.com" []))
    = false.
Proof. vm_compute. repeat split; reflexivity. Qed.

(* ================================================================== *)
(** * Further properties of the routes                                  *)
(* ================================================================== *)

Lemma filter_negb_none {A : Type} (p : A -> bool) (l : list A) :
  filter p l = [] -> filter (fun x => negb (p x)) l = l.
Proof.
  induction l as [|x l IH]; [reflexivity|].
  cbn [filter]. destruct (p x); cbn [negb]; [discriminate|].
  intros H. rewrite (IH H). reflexivity.
Qed.

Lemma hd_error_map_none {A B : Type} (f : A -> B) (l : list A) :
  hd_error (map f l) = None -> l = [].
Proof. destruct l; [reflexivity | discriminate]. Qed.

(** X1: whatever the database, the id and the request, each handler
    answers; it never throws, and the status is 200, 400, 404 or 500. *)
Theorem handlers_always_answer (w : World) (request : RequestBody)
    (path_id : JS.jsstring) :
  (exists r, snd (ScanRoute.GET path_id w) = inr r /\
             In (status r) [200; 400; 404; 500]) /\
  (exists r, snd (ScanRoute.DELETE path_id w) = inr r /\
             In (status r) [200; 400; 404; 500]) /\
  (exists r, snd (ScanRoute.PUT request path_id w) = inr r /\
             In (status r) [200; 400; 404; 500]).
Proof.
  unfold ScanRoute.GET, ScanRoute.DELETE, ScanRoute.PUT, try_catch.
  cbv zeta.
  destruct (JS.isNaN (JS.parseInt path_id)).
  { repeat split; eexists; (split; [reflexivity|]); cbn; tauto. }
  unfold ScanRoute.get_scan, ScanRoute.get_id, ScanRoute.request_json,
    ScanRoute.property, bind, query, execute, ret, throw,
    Sql.select_where, Sql.delete_where, Sql.update_where.
  destruct (scans (database w)) as [rows|] eqn:Ht; cbn; rewrite ?Ht; cbn.
  - repeat split.
    + destruct (hd_error (filter _ rows)); eexists;
        (split; [reflexivity|]); cbn; tauto.
    + destruct (hd_error (map _ (filter _ rows))); cbn; rewrite ?Ht; cbn;
        eexists; (split; [reflexivity|]); cbn; tauto.
    + destruct request as [| |fields]; cbn; rewrite ?Ht; cbn.
      * eexists; (split; [reflexivity|]); cbn; tauto.
      * destruct (hd_error (map _ (filter _ rows))); cbn;
          eexists; (split; [reflexivity|]); cbn; tauto.
      * destruct (hd_error (map _ (filter _ rows))); cbn; rewrite ?Ht; cbn.
        -- destruct (existsb _ rows); cbn; rewrite ?Ht; cbn;
             eexists; (split; [reflexivity|]); cbn; tauto.
        -- eexists; (split; [reflexivity|]); cbn; tauto.
  - repeat split.
    + eexists; (split; [reflexivity|]); cbn; tauto.
    + eexists; (split; [reflexivity|]); cbn; tauto.
    + destruct request as [| |fields]; cbn; rewrite ?Ht; cbn;
        eexists; (split; [reflexivity|]); cbn; tauto.
Qed.

(** X2: GET reads only: whatever the id, the database after the call is
    the database before it. *)
Theorem GET_reads_only (db : Database) (path_id : JS.jsstring) :
  after (ScanRoute.GET path_id) db = db.
Proof.
  unfold ScanRoute.GET, ScanRoute.get_scan. cbv zeta.
  destruct (JS.isNaN (JS.parseInt path_id)); run_store; [reflexivity|].
  destruct (Sql.select_where _ db) as [e|rows]; cbn; [reflexivity|].
  destruct (hd_error rows); reflexivity.
Qed.

(** The database a DELETE leaves when the table exists and the id
    parses. *)
Lemma delete_database (db : Database) (rows : list Row)
    (path_id : JS.jsstring) :
  scans db = Some rows ->
  JS.isNaN (JS.parseInt path_id) = false ->
  after (ScanRoute.DELETE path_id) db
  = {| scans := Some (filter (fun r => negb (Sql.id_equals
                                               (JS.parseInt path_id) r)) rows);
       sqlite_sequence := sqlite_sequence db |}.
Proof.
  intros Ht Hn.
  unfold ScanRoute.DELETE, ScanRoute.get_id. cbv zeta. rewrite Hn.
  run_store. unfold Sql.select_where, Sql.delete_where. rewrite Ht. cbn.
  destruct (hd_error (map _ (filter _ rows))) eqn:E; cbn.
  - rewrite Ht. reflexivity.
  - apply hd_error_map_none in E. rewrite (filter_negb_none _ _ E).
    destruct db. cbn in *. rewrite Ht. reflexivity.
Qed.

(** X3: DELETE removes the rows whose id equals the parsed id and nothing
    else: the other rows stay as they are and in order, and the table
    and the AUTOINCREMENT counter are neither created nor changed.  With
    an id that does not parse nothing is removed. *)
Theorem DELETE_removes_selected (db : Database) (path_id : JS.jsstring) :
  stored_rows (after (ScanRoute.DELETE path_id) db)
  = (if JS.isNaN (JS.parseInt path_id) then stored_rows db
     else filter (fun r => negb (Sql.id_equals (JS.parseInt path_id) r))
            (stored_rows db)) /\
  sqlite_sequence (after (ScanRoute.DELETE path_id) db) = sqlite_sequence db /\
  (scans (after (ScanRoute.DELETE path_id) db) = None <-> scans db = None).
Proof.
  destruct (JS.isNaN (JS.parseInt path_id)) eqn:Hn.
  - assert (E : after (ScanRoute.DELETE path_id) db = db).
    { unfold ScanRoute.DELETE. cbv zeta. rewrite Hn. reflexivity. }
    rewrite E. split; [reflexivity | split; [reflexivity | tauto]].
  - destruct (scans db) as [rows|] eqn:Ht.
    + rewrite (delete_database db rows path_id Ht Hn).
      unfold stored_rows. rewrite Ht. cbn.
      split; [reflexivity | split; [reflexivity|]]. split; discriminate.
    + assert (E : after (ScanRoute.DELETE path_id) db = db).
      { unfold ScanRoute.DELETE, ScanRoute.get_id. cbv zeta. rewrite Hn.
        run_store. unfold Sql.select_where. rewrite Ht. reflexivity. }
      rewrite E. unfold stored_rows. rewrite Ht.
      split; [reflexivity | split; [reflexivity | tauto]].
Qed.

(** X4: once DELETE has run on an id, GET on the same id answers 404. *)
Theorem DELETE_then_GET_not_found (db : Database) (rows : list Row)
    (path_id : JS.jsstring) :
  scans db = Some rows ->
  JS.isNaN (JS.parseInt path_id) = false ->
  outcome (ScanRoute.GET path_id) (after (ScanRoute.DELETE path_id) db)
  = inr ScanRoute.scan_not_found.
Proof.
  intros Ht Hn. rewrite (delete_database db rows path_id Ht Hn).
  unfold outcome, ScanRoute.GET, try_catch, bind. cbv zeta. rewrite Hn.
  erewrite get_scan_missing; [reflexivity | reflexivity |].
  intros r Hr. apply filter_In in Hr. destruct Hr as [_ Hr].
  apply negb_true_iff in Hr. exact Hr.
Qed.

Lemma DELETE_then_GET_not_found_1 :
  outcome (ScanRoute.GET (JS.js "1")) sample_database
    = inr (Response_json_ok
             (JObject [("success", JBool true); ("scan", json_of_row madrid)])) /\
  outcome (ScanRoute.GET (JS.js "1"))
    (after (ScanRoute.DELETE (JS.js "1")) sample_database)
    = inr ScanRoute.scan_not_found.
Proof.
  split; [vm_compute; reflexivity|].
  apply (DELETE_then_GET_not_found sample_database [madrid; no_fix] (JS.js "1")).
  - reflexivity.
  - vm_compute. reflexivity.
Defined.

Lemma selected_first {A : Type} (p : A -> bool) (l : list A) :
  existsb p l = true ->
  exists x, hd_error (filter p l) = Some x /\ In x l /\ p x = true.
Proof.
  induction l as [|a l IH]; [discriminate|].
  cbn [existsb filter]. destruct (p a) eqn:E; cbn.
  - intros _. exists a. repeat split; [left; reflexivity | exact E].
  - intros H. destruct (IH H) as (x & Hx & Hin & Hp).
    exists x. repeat split; [exact Hx | right; exact Hin | exact Hp].
Qed.

(** X5: GET on an id some row has answers 200 with a stored row whose id
    is the number the path parameter parses to. *)
Theorem GET_existing_scan (db : Database) (rows : list Row)
    (path_id : JS.jsstring) :
  scans db = Some rows ->
  JS.isNaN (JS.parseInt path_id) = false ->
  existsb (Sql.id_equals (JS.parseInt path_id)) rows = true ->
  exists r,
    In r rows /\
    JS.integer_value (JS.parseInt path_id) = Some (id r) /\
    outcome (ScanRoute.GET path_id) db
    = inr (Response_json_ok
             (JObject [("success", JBool true); ("scan", json_of_row r)])).
Proof.
  intros Ht Hn Hex.
  destruct (selected_first _ _ Hex) as (r & Hhd & Hin & Hp).
  exists r. split; [exact Hin|]. split.
  - unfold Sql.id_equals in Hp.
    destruct (JS.integer_value (JS.parseInt path_id)) as [n|]; [|discriminate].
    apply Z.eqb_eq in Hp. rewrite Hp. reflexivity.
  - unfold outcome, ScanRoute.GET, ScanRoute.get_scan, try_catch, bind.
    cbv zeta. rewrite Hn.
    rewrite (query_on_table _ _ (on db)
               (filter (Sql.id_equals (JS.parseInt path_id)) rows))
      by (apply select_where_table; exact Ht).
    unfold ret. rewrite Hhd. reflexivity.
Qed.

Lemma GET_existing_scan_2 :
  exists r,
    In r [madrid; no_fix] /\
    JS.integer_value (JS.parseInt (JS.js "2")) = Some (id r) /\
    outcome (ScanRoute.GET (JS.js "2")) sample_database
    = inr (Response_json_ok
             (JObject [("success", JBool true); ("scan", json_of_row r)])).
Proof.
  apply (GET_existing_scan sample_database [madrid; no_fix] (JS.js "2")).
  - reflexivity.
  - vm_compute. reflexivity.
  - vm_compute. reflexivity.
Defined.

Lemma unique_id_count (n : Z) (rows : list Row) :
  NoDup (map id rows) ->
  existsb (fun r => id r =? n) rows = true ->
  List.length (filter (fun r => id r =? n) rows) = 1%nat.
Proof.
  induction rows as [|r rows IH]; [discriminate|].
  cbn [map existsb filter]. intros Hnd Hex.
  inversion Hnd as [|? ? Hnin Hnd']; subst.
  destruct (id r =? n) eqn:E; cbn.
  - apply Z.eqb_eq in E. f_equal.
    rewrite filter_none; [reflexivity|].
    intros x Hx. apply Z.eqb_neq. intros Hxn. apply Hnin.
    rewrite E, <- Hxn. apply in_map. exact Hx.
  - apply IH; assumption.
Qed.

(** X6: on a table with pairwise distinct ids, DELETE on an id some row
    has answers 200 with [deletedId] the parsed id and [changes] 1. *)
Theorem DELETE_existing_scan (db : Database) (rows : list Row)
    (path_id : JS.jsstring) :
  scans db = Some rows ->
  NoDup (map id rows) ->
  JS.isNaN (JS.parseInt path_id) = false ->
  existsb (Sql.id_equals (JS.parseInt path_id)) rows = true ->
  outcome (ScanRoute.DELETE path_id) db
  = inr (Response_json_ok
           (JObject [("success", JBool true);
                     ("message", JString "Scan deleted successfully");
                     ("deletedId", JNumber (JS.parseInt path_id));
                     ("changes", JInteger 1)])).
Proof.
  intros Ht Hnd Hn Hex.
  destruct (selected_row_found _ _ Hex) as [i Hi].
  unfold outcome, ScanRoute.DELETE, ScanRoute.get_id, try_catch, bind.
  cbv zeta. rewrite Hn.
  rewrite (query_on_table _ _ (on db)
             (filter (Sql.id_equals (JS.parseInt path_id)) rows))
    by (apply select_where_table; exact Ht).
  unfold ret. rewrite Hi. unfold execute, Sql.delete_where. cbn.
  rewrite Ht.
  assert (E : List.length (filter (Sql.id_equals (JS.parseInt path_id)) rows)
              = 1%nat).
  { unfold Sql.id_equals in *.
    destruct (JS.integer_value (JS.parseInt path_id)) as [n|].
    - apply unique_id_count; assumption.
    - clear -Hex. induction rows; [discriminate|]. cbn in Hex. auto. }
  rewrite E. reflexivity.
Qed.

Lemma DELETE_existing_scan_1 :
  outcome (ScanRoute.DELETE (JS.js "1")) sample_database
  = inr (Response_json_ok
           (JObject [("success", JBool true);
                     ("message", JString "Scan deleted successfully");
                     ("deletedId", JNumber (JS.parseInt (JS.js "1")));
                     ("changes", JInteger 1)])).
Proof.
  apply (DELETE_existing_scan sample_database [madrid; no_fix] (JS.js "1")).
  - reflexivity.
  - vm_compute. repeat constructor; intros H; cbn in H; intuition discriminate.
  - vm_compute. reflexivity.
  - vm_compute. reflexivity.
Defined.

(** X7: before the [scans] table exists, a request whose id parses is
    answered 500 with the driver's message [no such table: scans] (for
    PUT when the body is readable), and the database stays as it is. *)
Theorem missing_table_is_500 (db : Database) (request : RequestBody)
    (path_id : JS.jsstring) :
  scans db = None ->
  JS.isNaN (JS.parseInt path_id) = false ->
  request <> Malformed ->
  outcome (ScanRoute.GET path_id) db
    = inr (Response_json
             (JObject [("success", JBool false);
                       ("error", JString "Failed to fetch scan");
                       ("message", JString "no such table: scans")]) 500) /\
  outcome (ScanRoute.DELETE path_id) db
    = inr (Response_json
             (JObject [("success", JBool false);
                       ("error", JString "Failed to delete scan");
                       ("message", JString "no such table: scans")]) 500) /\
  outcome (ScanRoute.PUT request path_id) db
    = inr (Response_json
             (JObject [("success", JBool false);
                       ("error", JString "Failed to update scan");
                       ("message", JString "no such table: scans")]) 500) /\
  after (ScanRoute.DELETE path_id) db = db /\
  after (ScanRoute.PUT request path_id) db = db.
Proof.
  intros Ht Hn Hr.
  unfold ScanRoute.GET, ScanRoute.DELETE, ScanRoute.PUT, ScanRoute.get_scan,
    ScanRoute.get_id, ScanRoute.request_json. cbv zeta. rewrite Hn.
  run_store. unfold Sql.select_where. rewrite Ht. cbn.
  repeat split; destruct request; try congruence; cbn; rewrite ?Ht;
    reflexivity.
Qed.

Lemma missing_table_is_500_fresh :
  outcome (ScanRoute.GET (JS.js "1")) empty_database
    = inr (Response_json
             (JObject [("success", JBool false);
                       ("error", JString "Failed to fetch scan");
                       ("message", JString "no such table: scans")]) 500).
Proof.
  apply (missing_table_is_500 empty_database NullLiteral (JS.js "1")).
  - reflexivity.
  - vm_compute. reflexivity.
  - discriminate.
Defined.

Lemma coalesce_twice {A : Type} (x y : option A) :
  Sql.coalesce x (Sql.coalesce x y) = Sql.coalesce x y.
Proof. destruct x; reflexivity. Qed.

Lemma set_coalesce_twice (qr : option string)
    (lat lon alt acc : option JS.number) (r : Row) :
  Sql.set_coalesce qr lat lon alt acc (Sql.set_coalesce qr lat lon alt acc r)
  = Sql.set_coalesce qr lat lon alt acc r.
Proof.
  unfold Sql.set_coalesce. cbn. rewrite !coalesce_twice. reflexivity.
Qed.

Lemma update_twice (scanId : JS.number) (qr : option string)
    (lat lon alt acc : option JS.number) (rows : list Row) :
  let update := fun r => if Sql.id_equals scanId r
                         then Sql.set_coalesce qr lat lon alt acc r else r in
  map update (map update rows) = map update rows.
Proof.
  cbv zeta. rewrite map_map. apply map_ext. intros r.
  destruct (Sql.id_equals scanId r) eqn:E.
  - assert (E' : Sql.id_equals scanId (Sql.set_coalesce qr lat lon alt acc r)
                 = true) by exact E.
    rewrite E'. apply set_coalesce_twice.
  - rewrite E. reflexivity.
Qed.

(** X8: PUT is idempotent: sending the same request twice leaves the
    database as sending it once does. *)
Theorem PUT_twice (db : Database) (request : RequestBody)
    (path_id : JS.jsstring) :
  after (ScanRoute.PUT request path_id)
    (after (ScanRoute.PUT request path_id) db)
  = after (ScanRoute.PUT request path_id) db.
Proof.
  destruct (put_database db request path_id)
    as [E | (fields & changes & Hreq & H)].
  - rewrite E. exact E.
  - destruct (put_database (after (ScanRoute.PUT request path_id) db)
                request path_id)
      as [E | (fields' & changes' & Hreq' & H')]; [exact E|].
    rewrite Hreq in Hreq'. injection Hreq' as <-.
    unfold Sql.update_where in H.
    destruct (scans db) as [rows|]; [|discriminate].
    destruct (existsb _ rows); [discriminate|].
    injection H as H _. rewrite <- H in H' |- *.
    unfold Sql.update_where in H'. cbn [scans sqlite_sequence] in H'.
    destruct (existsb _ (map _ rows)); [discriminate|].
    injection H' as H' _. rewrite <- H'.
    rewrite update_twice. reflexivity.
Qed.

(* ================================================================== *)
(** * Further properties of the data layers                             *)
(* ================================================================== *)









(** X12: before [initDatabase] has created the table, the simple
    [getScans] and [addScan] reject with [no such table], the simple
    [deleteScan] resolves [false], and none of them changes the
    database. *)
Theorem simple_store_before_init (now : string) (d : ScanData.t) (i : Z)
    (db : Database) :
  scans db = None ->
  outcome SimpleStore.getScans db = inl (SqlError NoSuchTable) /\
  outcome (SimpleStore.addScan now d) db = inl (SqlError NoSuchTable) /\
  outcome (SimpleStore.deleteScan i) db = inr false /\
  after SimpleStore.getScans db = db /\
  after (SimpleStore.addScan now d) db = db /\
  after (SimpleStore.deleteScan i) db = db.
Proof.
  intros Ht.
  unfold SimpleStore.getScans, SimpleStore.addScan, SimpleStore.deleteScan.
  run_store.
  unfold Sql.select_all, Sql.insert, Sql.delete_where. rewrite Ht. cbn.
  repeat split.
Qed.

Lemma simple_store_before_init_fresh :
  outcome SimpleStore.getScans empty_database = inl (SqlError NoSuchTable) /\
  outcome (SimpleStore.addScan "2023-11-15 08:00:00" example_scan)
    empty_database = inl (SqlError NoSuchTable) /\
  outcome (SimpleStore.deleteScan 1) empty_database = inr false /\
  after SimpleStore.getScans empty_database = empty_database /\
  after (SimpleStore.addScan "2023-11-15 08:00:00" example_scan)
    empty_database = empty_database /\
  after (SimpleStore.deleteScan 1) empty_database = empty_database.
Proof.
  apply (simple_store_before_init "2023-11-15 08:00:00" example_scan 1
           empty_database).
  reflexivity.
Defined.








(** X14: after the guarded [deleteScan] of an id, [getScans] lists the
    stored rows that have another id, and only those. *)
Theorem guarded_deleteScan_then_getScans (i : Z) (db : Database) :
  exists listed,
    outcome (GuardedStore.deleteScan i ;;; GuardedStore.getScans) db
      = inr listed /\
    forall r, In r listed <-> In r (stored_rows db) /\ id r <> i.
Proof.
  unfold outcome, GuardedStore.deleteScan, GuardedStore.getScans,
    GuardedStore.initDatabase, try_catch, bind, query, execute,
    Sql.delete_where, Sql.select_all. cbn.
  rewrite create_table_scans. cbn.
  eexists. split; [reflexivity|]. intros r. split.
  - intros H.
    apply (Permutation_in _ (order_by_timestamp_desc_perm _)) in H.
    apply filter_In in H. destruct H as [Hin Hne]. split; [exact Hin|].
    unfold Sql.id_is in Hne. apply negb_true_iff, Z.eqb_neq in Hne. exact Hne.
  - intros [Hin Hne].
    apply (Permutation_in _ (Permutation_sym (order_by_timestamp_desc_perm _))).
    apply filter_In. split; [exact Hin|].
    unfold Sql.id_is. apply negb_true_iff, Z.eqb_neq. exact Hne.
Qed.

(* ================================================================== *)
(** * Further properties of the capture handler                         *)
(* ================================================================== *)

(** X15: when the position cannot be read although the permission is
    granted, the capture is dropped: the handler logs the error and shows
    the alert, and nothing else happens; the scan is neither shown nor
    counted nor sent. *)
Theorem location_failure_drops_scan (env : Scanner.Env) (data : string)
    (error : exn) :
  Scanner.locationPermission env = true ->
  Scanner.getCurrentPositionAsync env = inl error ->
  Scanner.handleBarCodeScanned env data []
  = ([ Scanner.ConsoleError "Error handling scan:" error;
       Scanner.Alert "Error" "No se pudo procesar el código QR" ],
     inr tt).
Proof.
  intros Hp Hl. unfold Scanner.handleBarCodeScanned.
  rewrite Hp, Hl. reflexivity.
Qed.

Lemma location_failure_drops_scan_sample :
  Scanner.handleBarCodeScanned
    {| Scanner.locationPermission := true;
       Scanner.state_location := None;
       Scanner.getCurrentPositionAsync := inl (Error "Location unavailable");
       Scanner.Date_now := 1700000000000;
       Scanner.fetch := Scanner.Responds true (inr tt) |}
    "https://example.com" []
  = ([ Scanner.ConsoleError "Error handling scan:"
         (Error "Location unavailable");
       Scanner.Alert "Error" "No se pudo procesar el código QR" ],
     inr tt).
Proof.
  apply (location_failure_drops_scan
           {| Scanner.locationPermission := true;
              Scanner.state_location := None;
              Scanner.getCurrentPositionAsync :=
                inl (Error "Location unavailable");
              Scanner.Date_now := 1700000000000;
              Scanner.fetch := Scanner.Responds true (inr tt) |}
           "https://example.com" (Error "Location unavailable"));
    reflexivity.
Defined.

(** X16: a capture whose position is read (or needs none) sends exactly
    one request, a POST to [/scans] that carries the decoded text and
    the capture time as they are, whatever the network then does; the
    same text scanned again is sent again. *)
Theorem capture_posts_once (env : Scanner.Env) (data : string) :
  location_acquired env = true ->
  exists requestBody,
    filter is_request (fst (Scanner.handleBarCodeScanned env data []))
    = [Scanner.Fetch "/scans" "POST" requestBody] /\
    ScanData.qr_data requestBody = data /\
    ScanData.timestamp requestBody = Scanner.Date_now env.
Proof.
  intros Hloc. unfold location_acquired in Hloc.
  unfold Scanner.handleBarCodeScanned.
  destruct (Scanner.locationPermission env); cbn in Hloc.
  - destruct (Scanner.getCurrentPositionAsync env) as [error | l];
      [discriminate|]. run_ui.
    destruct (Scanner.fetch env) as [error | ok json]; cbn.
    + eexists. repeat split.
    + destruct ok; cbn; [|eexists; repeat split].
      destruct json as [error | []]; eexists; repeat split.
  - run_ui.
    destruct (Scanner.fetch env) as [error | ok json]; cbn.
    + eexists. repeat split.
    + destruct ok; cbn; [|eexists; repeat split].
      destruct json as [error | []]; eexists; repeat split.
Qed.

Lemma capture_posts_once_offline :
  exists requestBody,
    filter is_request
      (fst (Scanner.handleBarCodeScanned offline "https://example.com" []))
    = [Scanner.Fetch "/scans" "POST" requestBody] /\
    ScanData.qr_data requestBody = "https://example.com" /\
    ScanData.timestamp requestBody = Scanner.Date_now offline.
Proof.
  apply (capture_posts_once offline "https://example.com"). reflexivity.
Defined.

(* ================================================================== *)
(** * Properties of the history screen                                  *)
(* ================================================================== *)

Lemma search_ci_prefix (pattern text : string) :
  History.prefix_ci pattern text = true ->
  History.search_ci pattern text = true.
Proof. intros H. destruct text; cbn; rewrite H; reflexivity. Qed.

Lemma search_ci_skip (pattern before text : string) :
  History.search_ci pattern text = true ->
  History.search_ci pattern (String.append before text) = true.
Proof.
  intros H. induction before as [|c before IH]; [exact H|].
  cbn [String.append History.search_ci]. rewrite IH. apply orb_true_r.
Qed.

Lemma prefix_ci_fold (pattern marker rest : string) :
  fold_text marker = fold_text pattern ->
  History.prefix_ci pattern (String.append marker rest) = true.
Proof.
  revert marker.
  induction pattern as [|p pattern IH]; intros marker H; [reflexivity|].
  destruct marker as [|c marker]; [discriminate|].
  cbn [fold_text] in H. injection H as Hc Hrest.
  cbn [String.append History.prefix_ci].
  rewrite Hc, Ascii.eqb_refl. apply IH. exact Hrest.
Qed.

(** X17: [isURL] accepts every text that holds [www.] anywhere, in any
    letter case, and every text that starts with [http://] or [https://]
    in any letter case: [marker] is any spelling of the marker in small
    letters and capitals. *)
Theorem isURL_markers (before marker rest : string) :
  (fold_text marker = "www." ->
   History.isURL (String.append before (String.append marker rest)) = true) /\
  (fold_text marker = "http://" \/ fold_text marker = "https://" ->
   History.isURL (String.append marker rest) = true).
Proof.
  unfold History.isURL. split.
  - intros H. rewrite search_ci_skip; [apply orb_true_r|].
    apply search_ci_prefix. apply prefix_ci_fold. exact H.
  - intros [H | H].
    + rewrite (prefix_ci_fold "http://" marker rest H). reflexivity.
    + rewrite (prefix_ci_fold "https://" marker rest H).
      rewrite orb_true_r. reflexivity.
Qed.

Lemma isURL_markers_sample :
  History.isURL "visit wWw.example.com" = true /\
  History.isURL "HttpS://example.com" = true.
Proof.
  split.
  - apply (proj1 (isURL_markers "visit " "wWw." "example.com")). reflexivity.
  - apply (proj2 (isURL_markers "" "HttpS://" "example.com")).
    right. reflexivity.
Defined.

Example isURL_samples :
  History.isURL "https://example.com" = true /\
  History.isURL "visit www.example.com" = true /\
  History.isURL "see http://example.com" = false /\
  History.isURL "example.com" = false /\
  History.isURL "WIFI:S:cafe;;" = false.
Proof. vm_compute. repeat split; reflexivity. Qed.

Lemma fold_case_colon (c : ascii) :
  Ascii.eqb (History.fold_case ":") (History.fold_case c) = true ->
  Ascii.eqb c ":" = true.
Proof.
  destruct c as [b0 b1 b2 b3 b4 b5 b6 b7].
  destruct b0, b1, b2, b3, b4, b5, b6, b7; vm_compute;
    intros H; try discriminate H; reflexivity.
Qed.

Lemma fold_case_dot (c : ascii) :
  Ascii.eqb (History.fold_case ".") (History.fold_case c) = true ->
  Ascii.eqb c "." = true.
Proof.
  destruct c as [b0 b1 b2 b3 b4 b5 b6 b7].
  destruct b0, b1, b2, b3, b4, b5, b6, b7; vm_compute;
    intros H; try discriminate H; reflexivity.
Qed.

(** A character that only matches itself occurs in every text that
    starts with a pattern holding it. *)
Lemma prefix_ci_has_char (c : ascii) (pattern text : string) :
  (forall x, Ascii.eqb (History.fold_case c) (History.fold_case x) = true ->
             Ascii.eqb x c = true) ->
  has_char c pattern = true ->
  History.prefix_ci pattern text = true ->
  has_char c text = true.
Proof.
  intros Hc. revert text.
  induction pattern as [|p pattern IH]; intros text Hp H; [discriminate|].
  destruct text as [|x text]; [discriminate|].
  cbn [History.prefix_ci] in H. apply andb_true_iff in H.
  destruct H as [Hx Hrest].
  cbn [has_char] in Hp |- *. apply orb_true_iff in Hp.
  destruct Hp as [Hp | Hp].
  - apply Ascii.eqb_eq in Hp. subst p. rewrite (Hc x Hx). reflexivity.
  - rewrite (IH text Hp Hrest). apply orb_true_r.
Qed.

Lemma search_ci_has_char (c : ascii) (pattern text : string) :
  (forall x, Ascii.eqb (History.fold_case c) (History.fold_case x) = true ->
             Ascii.eqb x c = true) ->
  has_char c pattern = true ->
  History.search_ci pattern text = true ->
  has_char c text = true.
Proof.
  intros Hc Hp.
  induction text as [|x text IH]; intros H.
  - cbn in H. rewrite orb_false_r in H.
    apply (prefix_ci_has_char c pattern ""); assumption.
  - cbn [History.search_ci] in H. apply orb_true_iff in H.
    destruct H as [H | H].
    + apply (prefix_ci_has_char c pattern); assumption.
    + cbn [has_char]. rewrite (IH H). apply orb_true_r.
Qed.

(** X18: a text that holds neither a dot nor a colon is not taken for a
    URL. *)
Theorem isURL_needs_dot_or_colon (text : string) :
  has_char "." text = false ->
  has_char ":" text = false ->
  History.isURL text = false.
Proof.
  intros Hdot Hcolon. unfold History.isURL.
  destruct (History.prefix_ci "http://" text) eqn:E1.
  { apply (prefix_ci_has_char ":" "http://" text fold_case_colon eq_refl)
      in E1. congruence. }
  destruct (History.prefix_ci "https://" text) eqn:E2.
  { apply (prefix_ci_has_char ":" "https://" text fold_case_colon eq_refl)
      in E2. congruence. }
  destruct (History.search_ci "www." text) eqn:E3.
  { apply (search_ci_has_char "." "www." text fold_case_dot eq_refl) in E3.
    congruence. }
  reflexivity.
Qed.

Lemma isURL_needs_dot_or_colon_sample :
  History.isURL "hello world" = false.
Proof.
  apply (isURL_needs_dot_or_colon "hello world"); reflexivity.
Defined.


(** X20: [fetchScans] opens a dialog exactly when the request is
    rejected or the body of an ok answer cannot be read; an answer that
    is not ok is written to the console only. *)
Theorem fetchScans_dialog (net : History.list_outcome) (s : History.Screen) :
  exists new,
    History.events (fst (History.fetchScans net s))
      = History.events s ++ new /\
    existsb is_dialog new
    = match net with
      | History.ListRejects _ => true
      | History.ListResponds true (History.Unreadable _) => true
      | History.ListResponds true History.NullBody => true
      | _ => false
      end.
Proof.
  unfold History.fetchScans, try_finally, try_catch, bind,
    History.setLoading, History.setRefreshing, History.setScans,
    History.emit, History.data_scans, ret, throw.
  destruct net as [error | ok body]; cbn.
  - rewrite <- !app_assoc. eexists. split; [reflexivity|]. reflexivity.
  - destruct ok; cbn.
    + destruct body as [error | | l]; cbn; rewrite <- ?app_assoc;
        eexists; (split; [reflexivity|]); reflexivity.
    + rewrite <- !app_assoc. eexists. split; [reflexivity|]. reflexivity.
Qed.

(** X21: the history screen's [deleteScan] never throws.  On [Eliminar]
    with an ok answer the list loses the scans with the id and keeps the
    others in order; on [Cancelar] no request is sent; and whenever the
    answer is not an ok one the list is kept. *)
Theorem history_deleteScan (pressed : History.choice)
    (net : History.delete_outcome) (i : Z) (s : History.Screen) :
  snd (History.deleteScan pressed net i s) = inr tt /\
  History.scans (fst (History.deleteScan pressed net i s))
  = match pressed, net with
    | History.Eliminar, History.DeleteResponds true =>
        filter (fun scan => negb (id scan =? i)) (History.scans s)
    | _, _ => History.scans s
    end /\
  (pressed = History.Cancelar ->
   History.events (fst (History.deleteScan pressed net i s))
   = History.events s
     ++ [History.AlertButtons "Eliminar Escaneo"
           "¿Estás seguro de que quieres eliminar este escaneo?"
           ["Cancelar"; "Eliminar"]]) /\
  (pressed = History.Eliminar -> net = History.DeleteResponds true ->
   ~ In i (map id (History.scans (fst (History.deleteScan pressed net i s))))).
Proof.
  unfold History.deleteScan, try_catch, bind, History.setScans,
    History.emit, ret, throw.
  destruct pressed; cbn.
  - repeat split; intros; discriminate.
  - destruct net as [error | ok]; cbn.
    + repeat split; intros; discriminate.
    + destruct ok; cbn; (repeat split; try (intros; discriminate)).
      intros _ _ H. apply in_map_iff in H. destruct H as (r & E & Hr).
      apply filter_In in Hr. destruct Hr as [_ Hr].
      unfold Row_id in Hr. apply negb_true_iff, Z.eqb_neq in Hr.
      contradiction.
Qed.

(* ================================================================== *)
(** * Further properties of [parseInt]                                  *)
(* ================================================================== *)

Lemma trim_start_white (white rest : JS.jsstring) :
  forallb JS.is_white_space white = true ->
  JS.trim_start (white ++ rest) = JS.trim_start rest.
Proof.
  induction white as [|c white IH]; [reflexivity|].
  cbn [forallb app JS.trim_start]. intros H.
  apply andb_true_iff in H. destruct H as [Hc Hw].
  rewrite Hc. apply IH. exact Hw.
Qed.

(** X22: [parseInt] skips any run of white space before the number. *)
Theorem parseInt_skips_white_space (white rest : JS.jsstring) :
  forallb JS.is_white_space white = true ->
  JS.parseInt (white ++ rest) = JS.parseInt rest.
Proof.
  intros H. unfold JS.parseInt. rewrite (trim_start_white _ _ H). reflexivity.
Qed.

Lemma parseInt_skips_white_space_sample :
  JS.parseInt ([32; 9; 160]%N ++ JS.js "42") = JS.parseInt (JS.js "42").
Proof.
  apply (parseInt_skips_white_space [32; 9; 160]%N (JS.js "42")).
  reflexivity.
Defined.











(* ================================================================== *)
(** * Updating, adding and deleting, composed                           *)
(* ================================================================== *)

Lemma coalesce_updated_number (given old : option JS.number) :
  Sql.coalesce (Sql.bind_real (JS.or_null_number given)) old
  = updated_number given old.
Proof.
  destruct given as [f|]; [|reflexivity].
  unfold updated_number. destruct (JS.truthy_number f) eqn:E.
  - apply truthy_number_replaces. exact E.
  - apply falsy_number_keeps. exact E.
Qed.

Lemma coalesce_updated_string (given old : option string) :
  Sql.coalesce (JS.or_null_string given) old = updated_string given old.
Proof.
  destruct given as [s|]; [|reflexivity].
  unfold updated_string, JS.or_null_string.
  destruct (JS.truthy_string s); reflexivity.
Qed.

(** X24: take a PUT whose body gives each of the five fields a value
    of the field's type (a string for qr_data, a number for the others),
    [null] or nothing, on an existing scan of a table where qr_data and
    timestamp are present.  It stores, field by field, each truthy string
    or number of the body and keeps the stored value where the body has
    none or a falsy one; the row keeps its place, and its id, timestamp
    and creation time.  (Bodies with values of other types are not
    covered.) *)
Theorem PUT_existing_fields (db : Database) (before behind : list Row)
    (r : Row) (fields : Body.t) (path_id : JS.jsstring) :
  scans db = Some (before ++ r :: behind) ->
  Forall row_ok (before ++ r :: behind) ->
  JS.isNaN (JS.parseInt path_id) = false ->
  Sql.id_equals (JS.parseInt path_id) r = true ->
  exists before' behind',
    List.length before' = List.length before /\
    stored_rows (after (ScanRoute.PUT (Fields fields) path_id) db)
    = before' ++
      {| id := id r;
         qr_data := updated_string (Body.qr_data fields) (qr_data r);
         latitude := updated_number (Body.latitude fields) (latitude r);
         longitude := updated_number (Body.longitude fields) (longitude r);
         altitude := updated_number (Body.altitude fields) (altitude r);
         accuracy := updated_number (Body.accuracy fields) (accuracy r);
         timestamp := timestamp r;
         created_at := created_at r |} :: behind'.
Proof.
  intros Ht Hok Hn Hsel.
  rewrite (put_existing_scan db (before ++ r :: behind) fields path_id Ht Hok Hn).
  - rewrite map_app. cbn [map]. rewrite Hsel.
    eexists. eexists. split; [apply length_map|].
    unfold Sql.set_coalesce.
    rewrite !coalesce_updated_number, coalesce_updated_string. reflexivity.
  - rewrite existsb_app. cbn [existsb]. rewrite Hsel.
    rewrite orb_true_r. reflexivity.
Qed.

Lemma PUT_existing_fields_sample :
  exists before' behind',
    List.length before' = List.length [madrid] /\
    stored_rows
      (after (ScanRoute.PUT
                (Fields {| Body.qr_data := Some "";
                           Body.latitude := Some 41.5%float;
                           Body.longitude := Some 0%float;
                           Body.altitude := None;
                           Body.accuracy := Some 5%float |})
                (JS.js "2")) sample_database)
    = before' ++
      {| id := 2; qr_data := Some "WIFI:S:cafe;;";
         latitude := Some 41.5%float; longitude := None;
         altitude := None; accuracy := Some 5%float;
         timestamp := Some 1700000060000;
         created_at := Some "2023-11-14 22:14:20" |} :: behind'.
Proof.
  apply (PUT_existing_fields sample_database [madrid] [] no_fix
           {| Body.qr_data := Some "";
              Body.latitude := Some 41.5%float;
              Body.longitude := Some 0%float;
              Body.altitude := None;
              Body.accuracy := Some 5%float |} (JS.js "2")).
  - reflexivity.
  - repeat constructor; discriminate.
  - vm_compute. reflexivity.
  - vm_compute. reflexivity.
Defined.







(** X26: every capture whose position is read (or needs none) ends by
    showing the success banner, whether the scan was saved or not. *)
Theorem capture_shows_success_banner (env : Scanner.Env) (data : string) :
  location_acquired env = true ->
  last (fst (Scanner.handleBarCodeScanned env data []))
       (Scanner.Alert "" "")
  = Scanner.ShowNotification Scanner.success_message.
Proof.
  intros Hloc. unfold location_acquired in Hloc.
  unfold Scanner.handleBarCodeScanned.
  destruct (Scanner.locationPermission env); cbn in Hloc.
  - destruct (Scanner.getCurrentPositionAsync env) as [error | l];
      [discriminate|]. run_ui.
    destruct (Scanner.fetch env) as [error | ok json]; [reflexivity|].
    destruct ok; cbn; [|reflexivity].
    destruct json as [error | []]; reflexivity.
  - run_ui.
    destruct (Scanner.fetch env) as [error | ok json]; [reflexivity|].
    destruct ok; cbn; [|reflexivity].
    destruct json as [error | []]; reflexivity.
Qed.

Lemma capture_shows_success_banner_offline :
  Scanner.persistence_fails offline = true /\
  last (fst (Scanner.handleBarCodeScanned offline "https://example.com" []))
       (Scanner.Alert "" "")
  = Scanner.ShowNotification Scanner.success_message.
Proof.
  split; [reflexivity|].
  apply (capture_shows_success_banner offline "https://example.com").
  reflexivity.
Defined.
